(** * The MATLAB-to-Python TCP command server ([Python/interface/matlab.py])

    A shallow embedding of [MatlabTcpHandler.handle]: the line parser, the
    verb dispatch, the shared variable dictionary [global_vars], the
    redirection of [sys.stdout] around [/eval], and the three levels of
    [try]/[except] of the command loop.

    Conventions of the embedding.
    - A Python [str] is a [string]; each character stands for one code point
      below 256.
    - The session store [global_vars] is a finite map from names to values.
    - The Python evaluator ([eval], [exec], f-string formatting, [repr]) and
      the [json] module are library code: they are an interface
      ([Interpreter]) the handler is parameterised by.
    - [self.request.sendall], the encoding of a frame, f-string formatting
      and [repr] never fail, and [readline] hands the handler one request
      at a time; the frames a command sends are collected in order.
    - A turn of the loop runs without another thread in between.
    - [logging] calls write to the log only and are left out. *)

From Stdlib Require Import String Ascii List ZArith Lia Bool.
From Stdlib Require Import Decimal DecimalString DecimalZ.
From stdpp Require Import base gmap strings.
Import ListNotations.

(** Text concatenation unfolds on a text that starts with a known character. *)
#[local] Arguments String.append !_ _ / : simpl nomatch.

(** ** Characters and the [str] methods the handler calls *)

Module PyStr.

Definition LF : ascii := "010"%char.
Definition SPACE : ascii := " "%char.
Definition EQUALS : ascii := "="%char.
Definition RBRACKET : ascii := "]"%char.
Definition DQUOTE : ascii := "034"%char.

Definition nl : string := String LF EmptyString.
Definition dquote : string := String DQUOTE EmptyString.

(** [str.isspace] on one code point below 256: TAB..CR, FS..US, space,
    NEL and the no-break space. *)
Definition is_space (c : ascii) : bool :=
  let n := nat_of_ascii c in
  ((9 <=? n) && (n <=? 13)) || ((28 <=? n) && (n <=? 32))
  || (n =? 133) || (n =? 160).

Fixpoint lstrip (s : string) : string :=
  match s with
  | EmptyString => EmptyString
  | String c s' => if is_space c then lstrip s' else s
  end.

Fixpoint rstrip (s : string) : string :=
  match s with
  | EmptyString => EmptyString
  | String c s' =>
      match rstrip s' with
      | EmptyString => if is_space c then EmptyString else String c EmptyString
      | r => String c r
      end
  end.

(** [s.strip()] *)
Definition strip (s : string) : string := rstrip (lstrip s).

(** [c in s] for a one-character [c]. *)
Fixpoint contains (c : ascii) (s : string) : bool :=
  match s with
  | EmptyString => false
  | String d s' => Ascii.eqb d c || contains c s'
  end.

(** The text before and after the first [sep] of [s], if there is one. *)
Fixpoint cut (sep : ascii) (s : string) : option (string * string) :=
  match s with
  | EmptyString => None
  | String c s' =>
      if Ascii.eqb c sep then Some (EmptyString, s')
      else match cut sep s' with
           | Some (a, b) => Some (String c a, b)
           | None => None
           end
  end.

(** [s.split(sep, 1)] for a one-character separator: one or two parts. *)
Definition split1 (sep : ascii) (s : string) : list string :=
  match cut sep s with
  | Some (a, b) => [a; b]
  | None => [s]
  end.

Fixpoint starts_with (p s : string) : bool :=
  match p, s with
  | EmptyString, _ => true
  | String a p', String b s' => Ascii.eqb a b && starts_with p' s'
  | String _ _, EmptyString => false
  end.

(** [s.replace(old, new)] for a non-empty [old]: the occurrences of [old]
    are found from left to right and do not overlap. [skip] counts the
    characters of an occurrence already replaced that are still to pass. *)
Fixpoint replace_from (skip : nat) (old new s : string) : string :=
  match s with
  | EmptyString => EmptyString
  | String c s' =>
      match skip with
      | S k => replace_from k old new s'
      | O =>
          if starts_with old s
          then new +:+ replace_from (String.length old - 1) old new s'
          else String c (replace_from 0 old new s')
      end
  end.

(** With an empty [old] Python puts [new] before every character and at
    the end. *)
Fixpoint intersperse (new s : string) : string :=
  match s with
  | EmptyString => new
  | String c s' => new +:+ String c (intersperse new s')
  end.

Definition replace (old new s : string) : string :=
  match old with
  | EmptyString => intersperse new s
  | _ => replace_from 0 old new s
  end.

(** No character of the text is a blank. *)
Fixpoint no_space (s : string) : bool :=
  match s with
  | EmptyString => true
  | String c s' => negb (is_space c) && no_space s'
  end.

(** Number of line feeds in a text. *)
Fixpoint count_lf (s : string) : nat :=
  match s with
  | EmptyString => 0
  | String c s' => (if Ascii.eqb c LF then 1 else 0) + count_lf s'
  end.

Definition ends_with_lf (s : string) : bool :=
  match String.length s with
  | O => false
  | S n => match String.get n s with
           | Some c => Ascii.eqb c LF
           | None => false
           end
  end.

End PyStr.

(** ** Values, exceptions and the evaluator interface *)

(** A Python object as the handler sees it: [isinstance(v, str)] is the only
    test the handler makes. [VObject] stands for any object that is not
    [None], a [bool], an [int] or a [str] (a float, a list, a dict, a numpy
    array), known by what [str()] and [repr()] print for it. *)
Inductive value : Type :=
  | VNone
  | VBool (b : bool)
  | VInt (n : Z)
  | VStr (s : string)
  | VObject (printed represented : string).

Definition isinstance_str (v : value) : bool :=
  match v with
  | VStr _ => true
  | _ => false
  end.

(** A raised exception: whether it is an instance of [Exception] (what
    [except Exception] tests; [SystemExit] and [KeyboardInterrupt] are not)
    and its [str()]. *)
Record exn : Type := Exn { exn_is_Exception : bool; exn_str : string }.

Inductive completion (A : Type) : Type :=
  | Returns (a : A)
  | Raises (e : exn).
Arguments Returns {A} a.
Arguments Raises {A} e.

(** What a call into the evaluator does: the text it writes to [sys.stdout],
    the bindings of [global_vars] when it ends, and how it ends. *)
Record run (A : Type) : Type := Run {
  run_stdout : string;
  run_locals : gmap string value;
  run_result : completion A
}.
Arguments Run {A} _ _ _.
Arguments run_stdout {A} _.
Arguments run_locals {A} _.
Arguments run_result {A} _.

(** A call of the [json] module: a result, or the message of the exception
    (every exception of [json.loads] and [json.dumps] is an [Exception]). *)
Inductive attempt (A : Type) : Type :=
  | Success (a : A)
  | Failure (msg : string).
Arguments Success {A} a.
Arguments Failure {A} msg.

Class Interpreter : Type := {
  (** [eval(src, globals(), global_vars)] *)
  py_eval : string -> gmap string value -> run value;
  (** [exec(src, globals(), global_vars)] *)
  py_exec : string -> gmap string value -> run unit;
  (** [f"{v}"] *)
  py_format : value -> string;
  (** [repr(v)] *)
  py_repr : value -> string;
  json_loads : string -> attempt value;
  json_dumps : value -> attempt string
}.

(** ** The process state and the monad of handler code *)

(** [sys.stdout] is the console or an [io.StringIO] buffer. *)
Inductive stream : Type :=
  | Console
  | StringIO (buffer : string).

Record process : Type := Process {
  global_vars : gmap string value;
  sys_stdout : stream;
  console : string;
  shutdown_requested : bool
}.

Definition set_global_vars (g : gmap string value) (p : process) : process :=
  Process g (sys_stdout p) (console p) (shutdown_requested p).

Definition set_sys_stdout (s : stream) (p : process) : process :=
  Process (global_vars p) s (console p) (shutdown_requested p).

(** Writing to [sys.stdout]. *)
Definition write_stdout (text : string) (p : process) : process :=
  match sys_stdout p with
  | Console =>
      Process (global_vars p) Console (console p +:+ text) (shutdown_requested p)
  | StringIO b =>
      Process (global_vars p) (StringIO (b +:+ text)) (console p)
              (shutdown_requested p)
  end.

(** Handler code: from a process state, how it completes, the frames it
    passed to [self.request.sendall], in order, and the process state it
    leaves. An exception keeps the frames and the state reached. *)
Definition M (A : Type) : Type :=
  process -> completion A * list string * process.

Definition ret {A} (a : A) : M A := fun p => (Returns a, [], p).

Definition bind {A B} (m : M A) (f : A -> M B) : M B :=
  fun p =>
    match m p with
    | (Returns a, out, p') =>
        match f a p' with
        | (r, out', p'') => (r, out ++ out', p'')
        end
    | (Raises e, out, p') => (Raises e, out, p')
    end.

Declare Scope py_scope.
Delimit Scope py_scope with py.
Notation "x <- m ;; k" := (bind m (fun x => k))
  (at level 100, m at next level, right associativity) : py_scope.
Notation "m ;; k" := (bind m (fun _ => k))
  (at level 100, right associativity) : py_scope.
Local Open Scope py_scope.

Definition raise {A} (e : exn) : M A := fun p => (Raises e, [], p).

(** [try: body / except Exception as e: handler e] *)
Definition try_except {A} (body : M A) (handler : exn -> M A) : M A :=
  fun p =>
    match body p with
    | (Raises e, out, p') =>
        if exn_is_Exception e
        then match handler e p' with
             | (r, out', p'') => (r, out ++ out', p'')
             end
        else (Raises e, out, p')
    | done => done
    end.

Definition sendall (frame : string) : M unit := fun p => (Returns tt, [frame], p).

(** [print(text)] *)
Definition print (text : string) : M unit :=
  fun p => (Returns tt, [], write_stdout (text +:+ PyStr.nl) p).

Definition get_stdout : M stream := fun p => (Returns (sys_stdout p), [], p).

Definition set_stdout (s : stream) : M unit :=
  fun p => (Returns tt, [], set_sys_stdout s p).

(** [redirected_output.getvalue()], while [sys.stdout] is that buffer. *)
Definition getvalue : M string :=
  fun p =>
    (Returns match sys_stdout p with
             | StringIO b => b
             | Console => EmptyString
             end, [], p).

Definition lookup_var (name : string) : M (option value) :=
  fun p => (Returns (global_vars p !! name), [], p).

(** [global_vars[name] = v] *)
Definition store_var (name : string) (v : value) : M unit :=
  fun p => (Returns tt, [], set_global_vars (<[name := v]> (global_vars p)) p).

(** [server.shutdown], started from the handler. *)
Definition request_shutdown : M unit :=
  fun p =>
    (Returns tt, [],
     Process (global_vars p) (sys_stdout p) (console p) true).

Definition ValueError (msg : string) : exn := Exn true msg.

(** [a, b = parts] *)
Definition unpack2 (parts : list string) : M (string * string) :=
  match parts with
  | [a; b] => ret (a, b)
  | [] => raise (ValueError "not enough values to unpack (expected 2, got 0)")
  | [_] => raise (ValueError "not enough values to unpack (expected 2, got 1)")
  | _ => raise (ValueError "too many values to unpack (expected 2)")
  end.

(** [parts[1] if len(parts) > 1 else ''] *)
Definition second_or_empty (parts : list string) : string :=
  if 1 <? length parts then nth 1 parts EmptyString else EmptyString.

Inductive ctl : Type := Continue | Break.

(** The two calls of [replace] of the handler, on a text. *)
Definition two_step (text : string) : string :=
  PyStr.replace PyStr.nl "," (PyStr.replace (String PyStr.RBRACKET PyStr.nl) "];" text).

(** ** [MatlabTcpHandler.handle] *)

Section Handler.

Context {interp : Interpreter}.

(** [self.client_address], as an f-string prints it. *)
Variable client_address : string.

(** A call of [eval]: its output goes to whatever [sys.stdout] is, its
    bindings replace those of [global_vars]. *)
Definition call_eval (src : string) : M value :=
  fun p =>
    let r := py_eval src (global_vars p) in
    (run_result r, [], write_stdout (run_stdout r) (set_global_vars (run_locals r) p)).

Definition call_exec (src : string) : M unit :=
  fun p =>
    let r := py_exec src (global_vars p) in
    (run_result r, [], write_stdout (run_stdout r) (set_global_vars (run_locals r) p)).

(** [f"{result}".replace(']\n', '];').replace('\n', ',')] *)
Definition flatten (result : value) : string := two_step (py_format result).

(** The branch of [/eval] (lines 50-73). *)
Definition cmd_eval (arg : string) : M ctl :=
  old_stdout <- get_stdout ;;
  set_stdout (StringIO EmptyString) ;;
  r <- try_except (result <- call_eval arg ;; ret (Returns result))
                  (fun e => ret (Raises e)) ;;
  match r with
  | Raises e =>
      set_stdout old_stdout ;;
      sendall ("Eval error: " +:+ exn_str e +:+ PyStr.nl) ;;
      ret Continue
  | Returns result =>
      (* the buffer lives in [sys_stdout]: it is read before the stream is
         put back *)
      captured_output <- getvalue ;;
      set_stdout old_stdout ;;
      (match captured_output with
       | EmptyString => ret tt
       | _ => sendall ("[PYTHON_PRINT]" +:+ captured_output)
       end) ;;
      (match result with
       | VStr s => sendall ("Result: " +:+ s +:+ PyStr.nl)
       | _ => sendall ("Result: " +:+ flatten result +:+ PyStr.nl)
       end) ;;
      ret Continue
  end.

(** [/exec] (lines 75-77). *)
Definition cmd_exec (arg : string) : M ctl :=
  call_exec arg ;;
  sendall ("Exec success" +:+ PyStr.nl) ;;
  ret Continue.

(** [/get] (lines 79-89). *)
Definition cmd_get (arg : string) : M ctl :=
  found <- lookup_var arg ;;
  match found with
  | Some (VStr s) =>
      sendall (PyStr.dquote +:+ s +:+ PyStr.dquote +:+ PyStr.nl) ;; ret Continue
  | Some result =>
      sendall (flatten result +:+ PyStr.nl) ;; ret Continue
  | None =>
      sendall ("Error: Variable '" +:+ arg +:+ "' not found" +:+ PyStr.nl) ;;
      ret Continue
  end.

(** [/set] (lines 91-96). *)
Definition cmd_set (arg : string) : M ctl :=
  pair <- unpack2 (PyStr.split1 PyStr.EQUALS arg) ;;
  let var_name := PyStr.strip (fst pair) in
  var_value <- call_eval (snd pair) ;;
  store_var var_name var_value ;;
  sendall ("Set '" +:+ var_name +:+ "' to " +:+ py_repr var_value
           +:+ " success" +:+ PyStr.nl) ;;
  ret Continue.

(** [/set_json] (lines 98-108). *)
Definition cmd_set_json (arg : string) : M ctl :=
  pair <- unpack2 (PyStr.split1 PyStr.SPACE arg) ;;
  let var_name := PyStr.strip (fst pair) in
  match json_loads (snd pair) with
  | Failure e =>
      sendall ("Set JSON error: " +:+ e +:+ PyStr.nl) ;; ret Continue
  | Success var_value =>
      store_var var_name var_value ;;
      sendall ("Set JSON '" +:+ var_name +:+ "' success" +:+ PyStr.nl) ;;
      ret Continue
  end.

(** [/get_json] (lines 110-119). *)
Definition cmd_get_json (arg : string) : M ctl :=
  let var_name := PyStr.strip arg in
  found <- lookup_var var_name ;;
  match found with
  | Some v =>
      match json_dumps v with
      | Success json_str => sendall (json_str +:+ PyStr.nl) ;; ret Continue
      | Failure e =>
          sendall ("Get JSON error: " +:+ e +:+ PyStr.nl) ;; ret Continue
      end
  | None =>
      sendall ("Error: Variable '" +:+ var_name +:+ "' not found" +:+ PyStr.nl) ;;
      ret Continue
  end.

(** [/exit] (lines 121-123). *)
Definition cmd_exit : M ctl :=
  print ("Client " +:+ client_address +:+ " requested exit.") ;;
  ret Break.

(** [/close] (lines 125-131). *)
Definition cmd_close : M ctl :=
  print ("Client " +:+ client_address +:+ " requested server shutdown.") ;;
  sendall ("Server shutting down." +:+ PyStr.nl) ;;
  request_shutdown ;;
  ret Break.

(** The last [else] (lines 133-135). *)
Definition cmd_unrecognized (command_line : string) : M ctl :=
  print ("Unrecognized command: '" +:+ command_line +:+ "'") ;;
  sendall ("Unrecognized command: '" +:+ command_line +:+ "'" +:+ PyStr.nl) ;;
  ret Continue.

(** The [if]/[elif] chain on [cmd]: the body of the inner [try]. *)
Definition dispatch (cmd arg command_line : string) : M ctl :=
  if String.eqb cmd "/eval" then cmd_eval arg
  else if String.eqb cmd "/exec" then cmd_exec arg
  else if String.eqb cmd "/get" then cmd_get arg
  else if String.eqb cmd "/set" then cmd_set arg
  else if String.eqb cmd "/set_json" then cmd_set_json arg
  else if String.eqb cmd "/get_json" then cmd_get_json arg
  else if String.eqb cmd "/exit" then cmd_exit
  else if String.eqb cmd "/close" then cmd_close
  else cmd_unrecognized command_line.

(** The handler of the inner [try] (lines 137-139). *)
Definition on_command_error (e : exn) : M ctl :=
  sendall ("Server error: " +:+ exn_str e +:+ PyStr.nl) ;;
  ret Continue.

(** [command_line.split(' ', 1)] and the two names taken from it. *)
Definition parse (command_line : string) : string * string :=
  let parts := PyStr.split1 PyStr.SPACE command_line in
  (nth 0 parts EmptyString, second_or_empty parts).

(** One turn of the [while True] loop on the text [readline()] returned:
    [Continue] goes back to [readline], [Break] leaves the loop. The outer
    handlers (lines 141-149) all leave the loop; an exception that is not
    an [Exception] passes all three levels and leaves [handle]. *)
Definition handle_line (raw : string) : M ctl :=
  try_except
    (let command_line := PyStr.strip raw in
     match command_line with
     | EmptyString => ret Break
     | _ =>
         let cmd := fst (parse command_line) in
         let arg := snd (parse command_line) in
         try_except (dispatch cmd arg command_line) on_command_error
     end)
    (fun _ => ret Break).

(** The loop over what successive [readline()] calls return; when the
    client has closed, [readline()] returns the empty text. *)
Fixpoint handle_loop (reads : list string) : M unit :=
  match reads with
  | [] => handle_line EmptyString ;; ret tt
  | raw :: rest =>
      c <- handle_line raw ;;
      match c with
      | Continue => handle_loop rest
      | Break => ret tt
      end
  end.

Definition handle (reads : list string) : M unit :=
  sendall ("Hello from Python server!" +:+ PyStr.nl) ;;
  handle_loop reads.

End Handler.

(** ** The threaded server: one handler per connection, one process state *)

(** A connection as its client sees it: the frames received so far and
    whether the server still holds the socket open. *)
Record connection : Type := Connection {
  conn_address : string;
  conn_received : list string;
  conn_open : bool
}.

Record server : Type := Server {
  srv_process : process;
  srv_conns : gmap nat connection
}.

Definition still_open (r : completion ctl) : bool :=
  match r with
  | Returns Continue => true
  | _ => false
  end.

Section Serving.

Context {interp : Interpreter}.

(** A new connection: its handler sends the greeting (line 28). *)
Definition accept (fd : nat) (address : string) (srv : server) : server :=
  Server (srv_process srv)
         (<[fd := Connection address ["Hello from Python server!" +:+ PyStr.nl] true]>
            (srv_conns srv)).

(** The handler of connection [fd] reads [raw] and runs one turn of its
    loop; when the turn leaves the loop or [handle], the socket closes. *)
Definition deliver (fd : nat) (raw : string) (srv : server) : server :=
  match srv_conns srv !! fd with
  | Some c =>
      if conn_open c then
        match handle_line (conn_address c) raw (srv_process srv) with
        | (r, out, p') =>
            Server p'
                   (<[fd := Connection (conn_address c) (conn_received c ++ out)
                                       (still_open r)]> (srv_conns srv))
        end
      else srv
  | None => srv
  end.

End Serving.

(** ** A scripted evaluator for worked examples

    The behaviour of the Python evaluator and of [json] on the sources the
    examples below send (a few expressions and statements, integers in
    their canonical writing), and a refusal for every other source. *)

Module Demo.

Definition decimal (n : Z) : string := NilZero.string_of_int (Z.to_int n).

Definition ZeroDivisionError : exn := Exn true "division by zero".
Definition SystemExit : exn := Exn false EmptyString.

(** The answer of the script to a source it does not hold. *)
Definition refusal : exn := Exn true "not in the script".

Definition int_literal (s : string) : option Z :=
  match NilZero.int_of_string s with
  | Some d => if String.eqb (decimal (Z.of_int d)) s then Some (Z.of_int d) else None
  | None => None
  end.

(** [numpy.array([[1, 2], [3, 4]])] *)
Definition array_2x2 : value :=
  VObject ("[[1 2]" +:+ PyStr.nl +:+ " [3 4]]")
          ("array([[1, 2]," +:+ PyStr.nl +:+ "       [3, 4]])").

Definition eval (src : string) (g : gmap string value) : run value :=
  if String.eqb src "print('hi') or 1/0" then
    Run ("hi" +:+ PyStr.nl) g (Raises ZeroDivisionError)
  else if String.eqb src "print('hi') or 7" then
    Run ("hi" +:+ PyStr.nl) g (Returns (VInt 7))
  else if String.eqb src "1/0" then
    Run EmptyString g (Raises ZeroDivisionError)
  else if String.eqb src "'a' + chr(10) + 'b'" then
    Run EmptyString g (Returns (VStr ("a" +:+ PyStr.nl +:+ "b")))
  else if String.eqb src "np.array([[1, 2], [3, 4]])" then
    Run EmptyString g (Returns array_2x2)
  else if String.eqb src "x+2" then
    match g !! "x"%string with
    | Some (VInt n) => Run EmptyString g (Returns (VInt (n + 2)))
    | _ => Run EmptyString g (Raises refusal)
    end
  else
    match int_literal src with
    | Some n => Run EmptyString g (Returns (VInt n))
    | None => Run EmptyString g (Raises refusal)
    end.

Definition exec (src : string) (g : gmap string value) : run unit :=
  if String.eqb src "raise SystemExit" then
    Run EmptyString g (Raises SystemExit)
  else if String.eqb src "print('hi')" then
    Run ("hi" +:+ PyStr.nl) g (Returns tt)
  else if String.eqb src "y = 1" then
    Run EmptyString (<["y"%string := VInt 1]> g) (Returns tt)
  else Run EmptyString g (Raises refusal).

(** [f"{v}"] *)
Definition format (v : value) : string :=
  match v with
  | VNone => "None"
  | VBool true => "True"
  | VBool false => "False"
  | VInt n => decimal n
  | VStr s => s
  | VObject printed _ => printed
  end.

(** [repr(v)]; for a text, the form Python prints when the text holds no
    quote, backslash or control character. *)
Definition repr (v : value) : string :=
  match v with
  | VStr s => "'" +:+ s +:+ "'"
  | VObject _ represented => represented
  | _ => format v
  end.

(** [json.loads] and [json.dumps] on integers in their canonical writing
    and on the three literals; the script has no other text or value. *)
Definition loads (s : string) : attempt value :=
  match int_literal s with
  | Some n => Success (VInt n)
  | None =>
      if String.eqb s "null" then Success VNone
      else if String.eqb s "true" then Success (VBool true)
      else if String.eqb s "false" then Success (VBool false)
      else Failure "not in the script"
  end.

Definition dumps (v : value) : attempt string :=
  match v with
  | VNone => Success "null"%string
  | VBool true => Success "true"%string
  | VBool false => Success "false"%string
  | VInt n => Success (decimal n)
  | _ => Failure "not in the script"
  end.

Definition interpreter : Interpreter := {|
  py_eval := eval;
  py_exec := exec;
  py_format := format;
  py_repr := repr;
  json_loads := loads;
  json_dumps := dumps
|}.

Definition start : process := Process ∅ Console EmptyString false.

Definition address : string := "('127.0.0.1', 50000)".

(** Process states with one variable bound. *)
Definition with_int : process :=
  Process {[ "n"%string := VInt 5 ]} Console EmptyString false.

Definition with_text : process :=
  Process {[ "s"%string := VStr ("a" +:+ PyStr.nl +:+ "b") ]} Console EmptyString false.

Definition with_array : process :=
  Process {[ "a"%string := array_2x2 ]} Console EmptyString false.

(** A server with two clients connected. *)
Definition two_clients : server :=
  Server with_int
         (<[1 := Connection address ["Hello from Python server!" +:+ PyStr.nl] true]>
            (<[2 := Connection "('127.0.0.1', 50001)"
                               ["Hello from Python server!" +:+ PyStr.nl] true]> ∅)).

End Demo.

(** ** Vocabulary of the properties *)

(** What the two enclosing [try] statements of a turn make of the
    dispatch. *)
Definition after_dispatch (r : completion ctl * list string * process)
  : completion ctl * list string * process :=
  match r with
  | (Raises e, out, p') =>
      if exn_is_Exception e
      then (Returns Continue, out ++ ["Server error: " +:+ exn_str e +:+ PyStr.nl], p')
      else r
  | _ => r
  end.

(** The contract of the [json] module the round trip relies on: what
    [json.loads] returns, [json.dumps] writes as a text that [json.loads]
    reads back as the same value. *)
Definition json_round_trips (interp : Interpreter) : Prop :=
  forall (s : string) (v : value),
    json_loads s = Success v ->
    exists t : string, json_dumps v = Success t /\ json_loads t = Success v.

(** The rendering of a value in a reply: a text as it is, any other value
    through the two replacements. *)
Definition render {interp : Interpreter} (v : value) : string :=
  match v with
  | VStr s => s
  | _ => two_step (py_format v)
  end.

(** Line feeds a value brings into its reply: those of a text, which is
    sent as it is; none for any other value. *)
Definition embedded_lf (v : value) : nat :=
  match v with
  | VStr s => PyStr.count_lf s
  | _ => 0
  end.

(** The first and the second call of [replace] in [two_step]. *)
Definition step1 : string -> string :=
  PyStr.replace_from 0 (String PyStr.RBRACKET PyStr.nl) "];".

Definition step2 : string -> string := PyStr.replace_from 0 PyStr.nl ",".

(** The flattening of a printed value, read in one pass:

    The rule as the protocol words it: a [']'] that stands before a line
    feed becomes [];], every other line feed becomes a comma, and nothing
    else changes. *)

Fixpoint flatten_text (s : string) : string :=
  match s with
  | EmptyString => EmptyString
  | String c s' =>
      if Ascii.eqb c PyStr.RBRACKET then
        match s' with
        | String d s'' =>
            if Ascii.eqb d PyStr.LF then "];" +:+ flatten_text s''
            else String c (flatten_text s')
        | EmptyString => String c EmptyString
        end
      else if Ascii.eqb c PyStr.LF then "," +:+ flatten_text s'
      else String c (flatten_text s')
  end.

(** ** [start_server]: the project path put on [sys.path] *)

Module PyPath.

Definition BACKSLASH : ascii := "092"%char.

(** [s.split(sep)] for a one-character separator: every occurrence cuts,
    and the list is never empty. *)
Fixpoint split_all (sep : ascii) (s : string) : list string :=
  match s with
  | EmptyString => [EmptyString]
  | String c s' =>
      if Ascii.eqb c sep then EmptyString :: split_all sep s'
      else match split_all sep s' with
           | part :: parts => String c part :: parts
           | [] => [String c EmptyString]
           end
  end.

(** [sep.join(parts)] *)
Fixpoint join (sep : string) (parts : list string) : string :=
  match parts with
  | [] => EmptyString
  | [part] => part
  | part :: rest => part +:+ sep +:+ join sep rest
  end.

(** [parts[:-2]] *)
Definition but_last_two (parts : list string) : list string :=
  firstn (length parts - 2) parts.

(** Line 160, on the text [os.path.realpath(__file__)] returns. *)
Definition main_path (realpath : string) : string :=
  join (String BACKSLASH EmptyString) (but_last_two (split_all BACKSLASH realpath)).

(** Lines 162-163: [sys.path] after the test and the [append]. *)
Definition add_to_sys_path (path : string) (sys_path : list string) : list string :=
  if existsb (String.eqb path) sys_path then sys_path else sys_path ++ [path].

End PyPath.

(** ** A second script, for the examples of the other verbs *)

Module Script.

(** [exit()] on top of the first script. *)
Definition eval (src : string) (g : gmap string value) : run value :=
  if String.eqb src "exit()" then Run EmptyString g (Raises Demo.SystemExit)
  else Demo.eval src g.

(** [print('hi'); 1/0] on top of the first script. *)
Definition exec (src : string) (g : gmap string value) : run unit :=
  if String.eqb src "print('hi'); 1/0" then
    Run ("hi" +:+ PyStr.nl) g (Raises Demo.ZeroDivisionError)
  else Demo.exec src g.

(** [json.loads('oops')] on top of the first script. *)
Definition loads (s : string) : attempt value :=
  if String.eqb s "oops" then Failure "Expecting value: line 1 column 1 (char 0)"
  else Demo.loads s.

Definition interpreter : Interpreter := {|
  py_eval := eval;
  py_exec := exec;
  py_format := Demo.format;
  py_repr := Demo.repr;
  json_loads := loads;
  json_dumps := Demo.dumps
|}.

End Script.

(** Every character of the text is a blank. *)
Fixpoint all_blank (s : string) : bool :=
  match s with
  | EmptyString => true
  | String c s' => PyStr.is_space c && all_blank s'
  end.

(** The verbs of the dispatch, and those whose branch writes to the
    store. *)
Definition verbs : list string :=
  ["/eval"; "/exec"; "/get"; "/set"; "/set_json"; "/get_json"; "/exit"; "/close"]%string.

Definition writing_verbs : list string :=
  ["/eval"; "/exec"; "/set"; "/set_json"]%string.

Definition is_verb (cmd : string) : bool := existsb (String.eqb cmd) verbs.

(** The frames of a turn end with a frame that ends with a line feed. *)
Definition replied (out : list string) : Prop :=
  exists (before : list string) (frame : string),
    out = before ++ [frame] /\ PyStr.ends_with_lf frame = true.

Definition is_writing_verb (cmd : string) : bool :=
  existsb (String.eqb cmd) writing_verbs.

(** * Facts *)

(** ** Worked examples *)

Example strip_line :
  PyStr.strip ("  /get  x " +:+ PyStr.nl) = "/get  x"%string.
Proof. reflexivity. Qed.

Example split_first_space :
  PyStr.split1 PyStr.SPACE "/set a = b c" = ["/set"; "a = b c"]%string.
Proof. reflexivity. Qed.

Example split_no_separator : PyStr.split1 PyStr.EQUALS "x 5" = ["x 5"%string].
Proof. reflexivity. Qed.

Example replace_non_overlapping :
  PyStr.replace "aa" "b" "aaaaa" = "bba"%string.
Proof. reflexivity. Qed.

Example flatten_array :
  two_step ("[[1 2]" +:+ PyStr.nl +:+ " [3 4]]" +:+ PyStr.nl +:+ "x") = "[[1 2]; [3 4]];x"%string.
Proof. reflexivity. Qed.

Example flatten_plain_lines :
  two_step ("a" +:+ PyStr.nl +:+ "b" +:+ PyStr.nl) = "a,b,"%string.
Proof. reflexivity. Qed.

(** The scenario of the protocol description, on one connection: the
    greeting, then the replies to [/set x=5], [/eval x+2], [/get_json x]
    and [/bogus]; [/exit] ends the loop without a reply. *)
Example scenario :
  handle (interp := Demo.interpreter) Demo.address
    [ "/set x=5" +:+ PyStr.nl; "/eval x+2" +:+ PyStr.nl;
      "/get_json x" +:+ PyStr.nl; "/bogus" +:+ PyStr.nl; "/exit" +:+ PyStr.nl;
      "/get x" +:+ PyStr.nl ]
    Demo.start
  = (Returns tt,
     [ "Hello from Python server!" +:+ PyStr.nl;
       "Set 'x' to 5 success" +:+ PyStr.nl;
       "Result: 7" +:+ PyStr.nl;
       "5" +:+ PyStr.nl;
       "Unrecognized command: '/bogus'" +:+ PyStr.nl ],
     Process {[ "x"%string := VInt 5 ]} Console
       ("Unrecognized command: '/bogus'" +:+ PyStr.nl
        +:+ "Client ('127.0.0.1', 50000) requested exit." +:+ PyStr.nl)
       false).
Proof. vm_compute. reflexivity. Qed.

(** ** Facts about the [str] methods *)

Section StringFacts.

Import PyStr.

Lemma append_empty_r (s : string) : s +:+ EmptyString = s.
Proof. induction s as [|c s IH]; simpl; [reflexivity | f_equal; exact IH]. Qed.

Lemma append_cons (c : ascii) (a b : string) :
  String c a +:+ b = String c (a +:+ b).
Proof. reflexivity. Qed.

Lemma append_nil (b : string) : EmptyString +:+ b = b.
Proof. reflexivity. Qed.

Lemma append_assoc (a b c : string) : (a +:+ b) +:+ c = a +:+ (b +:+ c).
Proof. induction a as [|x a IH]; simpl; [reflexivity | f_equal; exact IH]. Qed.

Lemma rstrip_app_kept (a b : string) :
  rstrip b <> EmptyString -> rstrip (a +:+ b) = a +:+ rstrip b.
Proof.
  intros Hb. induction a as [|x a IH]; simpl; [reflexivity |].
  rewrite IH. destruct (a +:+ rstrip b) eqn:E; [| reflexivity].
  destruct a; simpl in E; [contradiction | discriminate].
Qed.

Lemma rstrip_app_blank (a b : string) :
  rstrip b = EmptyString -> rstrip (a +:+ b) = rstrip a.
Proof.
  intros Hb. induction a as [|x a IH]; simpl; [assumption | now rewrite IH].
Qed.

Lemma rstrip_line (s : string) : rstrip (s +:+ nl) = rstrip s.
Proof. now apply rstrip_app_blank. Qed.

Lemma rstrip_idem (s : string) : rstrip (rstrip s) = rstrip s.
Proof.
  induction s as [|c s IH]; simpl; [reflexivity |].
  destruct (rstrip s) as [|d r] eqn:E.
  - destruct (is_space c) eqn:Ec; simpl; [reflexivity | now rewrite Ec].
  - simpl in *. now rewrite IH.
Qed.

Lemma rstrip_lstrip_fixed (s : string) : strip s = s -> rstrip s = s.
Proof.
  intros Hs. rewrite <- Hs at 1. unfold strip. rewrite rstrip_idem. exact Hs.
Qed.

Lemma cut_absent (sep : ascii) (s : string) :
  contains sep s = false -> cut sep s = None.
Proof.
  induction s as [|c s IH]; simpl; [reflexivity |].
  intros Hc. apply orb_false_iff in Hc as [Hc Hs].
  rewrite Hc, (IH Hs). reflexivity.
Qed.

Lemma cut_first (sep : ascii) (a b : string) :
  contains sep a = false -> cut sep (a +:+ String sep b) = Some (a, b).
Proof.
  induction a as [|c a IH]; simpl.
  - intros _. now rewrite Ascii.eqb_refl.
  - intros Hc. apply orb_false_iff in Hc as [Hc Ha].
    rewrite Hc, (IH Ha). reflexivity.
Qed.

Lemma cut_found (sep : ascii) (s a b : string) :
  cut sep s = Some (a, b) -> contains sep s = true.
Proof.
  revert a b. induction s as [|c s IH]; simpl; [discriminate |].
  intros a b. destruct (Ascii.eqb c sep); [reflexivity |].
  destruct (cut sep s) as [[a' b']|]; [| discriminate].
  intros _. simpl. now apply (IH a' b').
Qed.

Lemma split1_absent (sep : ascii) (s : string) :
  contains sep s = false -> split1 sep s = [s].
Proof. intros Hs. unfold split1. now rewrite cut_absent. Qed.

Lemma split1_first (sep : ascii) (a b : string) :
  contains sep a = false -> split1 sep (a +:+ String sep b) = [a; b].
Proof. intros Ha. unfold split1. now rewrite cut_first. Qed.

Lemma lstrip_word (w x : string) :
  no_space w = true -> w <> EmptyString -> lstrip (w +:+ x) = w +:+ x.
Proof.
  destruct w as [|c w]; [congruence |]. simpl. intros Hw _.
  apply andb_true_iff in Hw as [Hc _]. apply negb_true_iff in Hc.
  now rewrite Hc.
Qed.

Lemma rstrip_word (w : string) : no_space w = true -> rstrip w = w.
Proof.
  induction w as [|c w IH]; simpl; [reflexivity |]. intros Hw.
  apply andb_true_iff in Hw as [Hc Hw]. apply negb_true_iff in Hc.
  rewrite (IH Hw), Hc. now destruct w.
Qed.

Lemma contains_word (w : string) :
  no_space w = true -> contains SPACE w = false.
Proof.
  induction w as [|c w IH]; simpl; [reflexivity |]. intros Hw.
  apply andb_true_iff in Hw as [Hc Hw]. rewrite (IH Hw), orb_false_r.
  destruct (Ascii.eqb_spec c SPACE) as [->|]; [discriminate | reflexivity].
Qed.

Lemma count_lf_app (a b : string) :
  count_lf (a +:+ b) = count_lf a + count_lf b.
Proof. induction a as [|c a IH]; simpl; [reflexivity | rewrite IH; lia]. Qed.

Lemma ends_with_lf_line (s : string) : ends_with_lf (s +:+ nl) = true.
Proof.
  unfold ends_with_lf.
  assert (Hlen : String.length (s +:+ nl) = S (String.length s)).
  { induction s as [|c s IH]; simpl; [reflexivity | now rewrite IH]. }
  rewrite Hlen. clear Hlen.
  assert (Hget : String.get (String.length s) (s +:+ nl) = Some LF).
  { induction s as [|c s IH]; simpl; [reflexivity | exact IH]. }
  now rewrite Hget.
Qed.

End StringFacts.

Section FlattenFacts.

Import PyStr.

#[local] Arguments Ascii.eqb : simpl never.

Lemma two_step_steps (s : string) : two_step s = step2 (step1 s).
Proof. reflexivity. Qed.

Lemma replace_from_zero (old new : string) (c : ascii) (s : string) :
  replace_from 0 old new (String c s) =
  if starts_with old (String c s)
  then new +:+ replace_from (String.length old - 1) old new s
  else String c (replace_from 0 old new s).
Proof. reflexivity. Qed.

Lemma step2_cons (c : ascii) (t : string) :
  step2 (String c t) =
  if Ascii.eqb c LF then "," +:+ step2 t else String c (step2 t).
Proof.
  unfold step2. rewrite replace_from_zero.
  change (starts_with nl (String c t)) with (Ascii.eqb LF c && true).
  rewrite (Ascii.eqb_sym LF c), andb_true_r. reflexivity.
Qed.

Lemma step1_pair (s : string) :
  step1 (String RBRACKET (String LF s)) = "];" +:+ step1 s.
Proof. reflexivity. Qed.

Lemma step1_cons_other (c : ascii) (s : string) :
  starts_with (String RBRACKET nl) (String c s) = false ->
  step1 (String c s) = String c (step1 s).
Proof. intros Hs. unfold step1. now rewrite replace_from_zero, Hs. Qed.

Lemma no_pair_first (c : ascii) (s : string) :
  c <> RBRACKET -> starts_with (String RBRACKET nl) (String c s) = false.
Proof.
  intros Hc. simpl. rewrite (Ascii.eqb_sym RBRACKET c).
  destruct (Ascii.eqb_spec c RBRACKET); [contradiction | reflexivity].
Qed.

Lemma no_pair_second (c d : ascii) (s : string) :
  d <> LF -> starts_with (String RBRACKET nl) (String c (String d s)) = false.
Proof.
  intros Hd. simpl. rewrite (Ascii.eqb_sym LF d).
  destruct (Ascii.eqb_spec d LF); [contradiction | now rewrite andb_false_r].
Qed.

Lemma no_pair_last (c : ascii) :
  starts_with (String RBRACKET nl) (String c EmptyString) = false.
Proof. simpl. now rewrite andb_false_r. Qed.

Lemma flatten_text_cons2 (c d : ascii) (s : string) :
  flatten_text (String c (String d s)) =
  if Ascii.eqb c RBRACKET
  then (if Ascii.eqb d LF then "];" +:+ flatten_text s
        else String c (flatten_text (String d s)))
  else if Ascii.eqb c LF then "," +:+ flatten_text (String d s)
       else String c (flatten_text (String d s)).
Proof. reflexivity. Qed.

Lemma flatten_text_cons1 (c : ascii) :
  flatten_text (String c EmptyString) =
  if Ascii.eqb c RBRACKET then String c EmptyString
  else if Ascii.eqb c LF then ","%string else String c EmptyString.
Proof. reflexivity. Qed.

Lemma two_step_both (s : string) :
  step2 (step1 s) = flatten_text s /\
  forall c, step2 (step1 (String c s)) = flatten_text (String c s).
Proof.
  induction s as [|d s [IHs IHc]].
  - split; [reflexivity |]. intros c.
    rewrite step1_cons_other by apply no_pair_last.
    rewrite step2_cons, flatten_text_cons1.
    destruct (Ascii.eqb_spec c RBRACKET) as [->|]; reflexivity.
  - split; [apply IHc |]. intros c. rewrite flatten_text_cons2.
    destruct (Ascii.eqb_spec c RBRACKET) as [->|Hc].
    + destruct (Ascii.eqb_spec d LF) as [->|Hd].
      * rewrite step1_pair, !append_cons, append_nil, !step2_cons, IHs.
        reflexivity.
      * rewrite step1_cons_other by now apply no_pair_second.
        rewrite step2_cons, IHc. reflexivity.
    + rewrite step1_cons_other by now apply no_pair_first.
      rewrite step2_cons, IHc. reflexivity.
Qed.

(** The two replacements of the handler compute the one-pass rule. *)
Lemma two_step_flatten_text (s : string) : two_step s = flatten_text s.
Proof. rewrite two_step_steps. apply two_step_both. Qed.

Lemma count_lf_cons (c : ascii) (s : string) :
  count_lf (String c s) = (if Ascii.eqb c LF then 1 else 0) + count_lf s.
Proof. reflexivity. Qed.

Lemma flatten_text_no_lf_both (s : string) :
  count_lf (flatten_text s) = 0 /\
  forall c, count_lf (flatten_text (String c s)) = 0.
Proof.
  induction s as [|d s [IHs IHc]].
  - split; [reflexivity |]. intros c. rewrite flatten_text_cons1.
    destruct (Ascii.eqb_spec c RBRACKET) as [->|]; [reflexivity |].
    destruct (Ascii.eqb c LF) eqn:E; [reflexivity |].
    rewrite count_lf_cons, E. reflexivity.
  - split; [apply IHc |]. intros c. rewrite flatten_text_cons2.
    destruct (Ascii.eqb_spec c RBRACKET) as [->|].
    + destruct (Ascii.eqb d LF).
      * rewrite !append_cons, append_nil, !count_lf_cons, IHs. reflexivity.
      * rewrite count_lf_cons, IHc. reflexivity.
    + destruct (Ascii.eqb c LF) eqn:E.
      * rewrite append_cons, append_nil, count_lf_cons, IHc. reflexivity.
      * rewrite count_lf_cons, E, IHc. reflexivity.
Qed.

Lemma two_step_no_lf (s : string) : count_lf (two_step s) = 0.
Proof. rewrite two_step_flatten_text. apply flatten_text_no_lf_both. Qed.

End FlattenFacts.

(** ** One turn of the loop, by cases on how the dispatch ends *)

Section Turn.

Context {interp : Interpreter}.
Variable client_address : string.

Lemma parse_empty : parse EmptyString = (EmptyString, EmptyString).
Proof. reflexivity. Qed.

Lemma handle_line_dispatch (raw cmd arg : string) (p : process) :
  parse (PyStr.strip raw) = (cmd, arg) ->
  cmd <> EmptyString ->
  handle_line client_address raw p =
  after_dispatch (dispatch client_address cmd arg (PyStr.strip raw) p).
Proof.
  intros Hparse Hcmd. unfold handle_line.
  destruct (PyStr.strip raw) as [|c line] eqn:Hline.
  - rewrite parse_empty in Hparse. inversion Hparse. congruence.
  - rewrite Hparse. cbn [fst snd]. unfold try_except, after_dispatch.
    destruct (dispatch client_address cmd arg (String c line) p) as [[[k|e] out] p'].
    + reflexivity.
    + destruct (exn_is_Exception e) eqn:He; [| now rewrite He].
      unfold on_command_error, bind, sendall, ret. reflexivity.
Qed.

Lemma handle_line_blank (raw : string) (p : process) :
  PyStr.strip raw = EmptyString ->
  handle_line client_address raw p = (Returns Break, [], p).
Proof. intros Hraw. unfold handle_line. now rewrite Hraw. Qed.

(** Only an exception outside [Exception] leaves [handle_line]. *)
Lemma handle_line_escape (raw : string) (p p' : process) (e : exn) (out : list string) :
  handle_line client_address raw p = (Raises e, out, p') ->
  exn_is_Exception e = false.
Proof.
  unfold handle_line, try_except.
  destruct (PyStr.strip raw) as [|c line]; [discriminate |].
  destruct (dispatch _ _ _ _ p) as [[[k|e0] out0] p0].
  - discriminate.
  - destruct (exn_is_Exception e0) eqn:He0.
    + unfold on_command_error, bind, sendall, ret. discriminate.
    + rewrite He0. intros Heq. inversion Heq. now subst.
Qed.

End Turn.

(** ** The verbs *)

Section Verbs.

Context {interp : Interpreter}.
Variable client_address : string.

Lemma dispatch_eval (arg line : string) :
  dispatch client_address "/eval" arg line = cmd_eval arg.
Proof. reflexivity. Qed.

Lemma dispatch_exec (arg line : string) :
  dispatch client_address "/exec" arg line = cmd_exec arg.
Proof. reflexivity. Qed.

Lemma dispatch_get (arg line : string) :
  dispatch client_address "/get" arg line = cmd_get arg.
Proof. reflexivity. Qed.

Lemma dispatch_set (arg line : string) :
  dispatch client_address "/set" arg line = cmd_set arg.
Proof. reflexivity. Qed.

Lemma dispatch_set_json (arg line : string) :
  dispatch client_address "/set_json" arg line = cmd_set_json arg.
Proof. reflexivity. Qed.

Lemma dispatch_get_json (arg line : string) :
  dispatch client_address "/get_json" arg line = cmd_get_json arg.
Proof. reflexivity. Qed.

Lemma dispatch_exit (arg line : string) :
  dispatch client_address "/exit" arg line = cmd_exit client_address.
Proof. reflexivity. Qed.

Lemma eval_returns (arg : string) (p : process) (v : value) :
  run_result (py_eval arg (global_vars p)) = Returns v ->
  cmd_eval arg p =
  (Returns Continue,
   match run_stdout (py_eval arg (global_vars p)) with
   | EmptyString => []
   | out => ["[PYTHON_PRINT]" +:+ out]
   end ++ ["Result: " +:+ render v +:+ PyStr.nl],
   Process (run_locals (py_eval arg (global_vars p))) (sys_stdout p)
           (console p) (shutdown_requested p)).
Proof.
  intros Hres.
  unfold cmd_eval, bind, try_except, call_eval, get_stdout, set_stdout,
    getvalue, ret, sendall, write_stdout, set_sys_stdout, set_global_vars.
  cbn. rewrite Hres. cbn.
  destruct (run_stdout (py_eval arg (global_vars p))); destruct v; reflexivity.
Qed.

Lemma eval_raises (arg : string) (p : process) (e : exn) :
  run_result (py_eval arg (global_vars p)) = Raises e ->
  exn_is_Exception e = true ->
  cmd_eval arg p =
  (Returns Continue,
   ["Eval error: " +:+ exn_str e +:+ PyStr.nl],
   Process (run_locals (py_eval arg (global_vars p))) (sys_stdout p)
           (console p) (shutdown_requested p)).
Proof.
  intros Hres He.
  unfold cmd_eval, bind, try_except, call_eval, get_stdout, set_stdout,
    getvalue, ret, sendall, write_stdout, set_sys_stdout, set_global_vars.
  cbn. rewrite Hres. cbn. rewrite He. reflexivity.
Qed.

(** An exception that is not an [Exception] leaves [sys.stdout] on the
    buffer: no handler restores it. *)
Lemma eval_escapes (arg : string) (p : process) (e : exn) :
  run_result (py_eval arg (global_vars p)) = Raises e ->
  exn_is_Exception e = false ->
  cmd_eval arg p =
  (Raises e, [],
   Process (run_locals (py_eval arg (global_vars p)))
           (StringIO (run_stdout (py_eval arg (global_vars p))))
           (console p) (shutdown_requested p)).
Proof.
  intros Hres He.
  unfold cmd_eval, bind, try_except, call_eval, get_stdout, set_stdout,
    getvalue, ret, sendall, write_stdout, set_sys_stdout, set_global_vars.
  cbn. rewrite Hres. cbn. rewrite He. reflexivity.
Qed.

Lemma get_reply (arg : string) (p : process) :
  cmd_get arg p =
  (Returns Continue,
   [match global_vars p !! arg with
    | Some (VStr s) => PyStr.dquote +:+ s +:+ PyStr.dquote +:+ PyStr.nl
    | Some v => two_step (py_format v) +:+ PyStr.nl
    | None => "Error: Variable '" +:+ arg +:+ "' not found" +:+ PyStr.nl
    end],
   p).
Proof.
  unfold cmd_get, bind, lookup_var, sendall, ret. cbn.
  destruct (global_vars p !! arg) as [[]|]; reflexivity.
Qed.

Lemma get_json_reply (arg : string) (p : process) :
  cmd_get_json arg p =
  (Returns Continue,
   [match global_vars p !! PyStr.strip arg with
    | Some v =>
        match json_dumps v with
        | Success json_str => json_str +:+ PyStr.nl
        | Failure e => "Get JSON error: " +:+ e +:+ PyStr.nl
        end
    | None =>
        "Error: Variable '" +:+ PyStr.strip arg +:+ "' not found" +:+ PyStr.nl
    end],
   p).
Proof.
  unfold cmd_get_json, bind, lookup_var, sendall, ret. cbn.
  destruct (global_vars p !! PyStr.strip arg) as [v|]; [| reflexivity].
  destruct (json_dumps v); reflexivity.
Qed.

Lemma set_json_stores (name text : string) (p : process) (v : value) :
  PyStr.contains PyStr.SPACE name = false ->
  json_loads text = Success v ->
  cmd_set_json (name +:+ String PyStr.SPACE text) p =
  (Returns Continue,
   ["Set JSON '" +:+ PyStr.strip name +:+ "' success" +:+ PyStr.nl],
   set_global_vars (<[PyStr.strip name := v]> (global_vars p)) p).
Proof.
  intros Hname Hloads. unfold cmd_set_json.
  rewrite (split1_first _ _ _ Hname).
  unfold bind, unpack2, ret, store_var, sendall. cbn. rewrite Hloads. reflexivity.
Qed.

Lemma set_unpack_fails (arg : string) (p : process) :
  PyStr.contains PyStr.EQUALS arg = false ->
  cmd_set arg p =
  (Raises (ValueError "not enough values to unpack (expected 2, got 1)"), [], p).
Proof.
  intros Harg. unfold cmd_set. rewrite (split1_absent _ _ Harg). reflexivity.
Qed.

Lemma turn_eval_returns (raw arg : string) (p : process) (v : value) :
  parse (PyStr.strip raw) = ("/eval"%string, arg) ->
  run_result (py_eval arg (global_vars p)) = Returns v ->
  handle_line client_address raw p =
  (Returns Continue,
   match run_stdout (py_eval arg (global_vars p)) with
   | EmptyString => []
   | out => ["[PYTHON_PRINT]" +:+ out]
   end ++ ["Result: " +:+ render v +:+ PyStr.nl],
   Process (run_locals (py_eval arg (global_vars p))) (sys_stdout p)
           (console p) (shutdown_requested p)).
Proof.
  intros Hparse Hres.
  rewrite (handle_line_dispatch client_address _ _ _ _ Hparse) by discriminate.
  now rewrite dispatch_eval, (eval_returns arg p v Hres).
Qed.

Lemma turn_get (raw arg : string) (p : process) :
  parse (PyStr.strip raw) = ("/get"%string, arg) ->
  handle_line client_address raw p = cmd_get arg p.
Proof.
  intros Hparse.
  rewrite (handle_line_dispatch client_address _ _ _ _ Hparse) by discriminate.
  now rewrite dispatch_get, get_reply.
Qed.

Lemma turn_get_json (raw arg : string) (p : process) :
  parse (PyStr.strip raw) = ("/get_json"%string, arg) ->
  handle_line client_address raw p = cmd_get_json arg p.
Proof.
  intros Hparse.
  rewrite (handle_line_dispatch client_address _ _ _ _ Hparse) by discriminate.
  now rewrite dispatch_get_json, get_json_reply.
Qed.

Lemma turn_exit (raw arg : string) (p : process) :
  parse (PyStr.strip raw) = ("/exit"%string, arg) ->
  handle_line client_address raw p =
  (Returns Break, [],
   write_stdout (("Client " +:+ client_address +:+ " requested exit.") +:+ PyStr.nl) p).
Proof.
  intros Hparse.
  now rewrite (handle_line_dispatch client_address _ _ _ _ Hparse) by discriminate.
Qed.

Lemma write_stdout_global_vars (text : string) (p : process) :
  global_vars (write_stdout text p) = global_vars p.
Proof. unfold write_stdout. now destruct (sys_stdout p). Qed.

Lemma write_stdout_shutdown (text : string) (p : process) :
  shutdown_requested (write_stdout text p) = shutdown_requested p.
Proof. unfold write_stdout. now destruct (sys_stdout p). Qed.

Lemma exit_leaves (p : process) :
  cmd_exit client_address p =
  (Returns Break, [],
   write_stdout (("Client " +:+ client_address +:+ " requested exit.") +:+ PyStr.nl) p).
Proof. reflexivity. Qed.

End Verbs.

(** ** Request lines: a verb, a space, an argument and the line feed *)

Section Requests.

Import PyStr.

Lemma strip_request_bare (verb : string) :
  no_space verb = true -> verb <> EmptyString ->
  strip (verb +:+ " " +:+ nl) = verb.
Proof.
  intros Hverb Hne. unfold strip. rewrite (lstrip_word _ _ Hverb Hne).
  rewrite rstrip_app_blank by reflexivity. now apply rstrip_word.
Qed.

Lemma strip_request (verb rest : string) :
  no_space verb = true -> verb <> EmptyString ->
  rstrip rest = rest -> rest <> EmptyString ->
  strip (verb +:+ " " +:+ rest +:+ nl) = verb +:+ String SPACE rest.
Proof.
  intros Hverb Hne Hrest Hrest_ne. unfold strip.
  rewrite (lstrip_word _ _ Hverb Hne).
  assert (Htail : rstrip (rest +:+ nl) = rest) by now rewrite rstrip_line.
  assert (Hsp : rstrip (" " +:+ rest +:+ nl) = String SPACE rest).
  { rewrite rstrip_app_kept; rewrite Htail; [reflexivity | assumption]. }
  rewrite rstrip_app_kept; rewrite Hsp; [reflexivity | discriminate].
Qed.

Lemma parse_verb_alone (verb : string) :
  no_space verb = true -> parse verb = (verb, EmptyString).
Proof.
  intros Hverb. unfold parse.
  now rewrite (split1_absent _ _ (contains_word _ Hverb)).
Qed.

Lemma parse_verb_argument (verb rest : string) :
  no_space verb = true -> parse (verb +:+ String SPACE rest) = (verb, rest).
Proof.
  intros Hverb. unfold parse.
  now rewrite (split1_first _ _ _ (contains_word _ Hverb)).
Qed.

(** The parser gives back the verb and the argument of a request line whose
    argument does not end with a blank. *)
Lemma parse_request (verb rest : string) :
  no_space verb = true -> verb <> EmptyString ->
  rstrip rest = rest ->
  parse (strip (verb +:+ " " +:+ rest +:+ nl)) = (verb, rest).
Proof.
  intros Hverb Hne Hrest. destruct rest as [|c rest].
  - rewrite append_nil, (strip_request_bare _ Hverb Hne).
    now apply parse_verb_alone.
  - rewrite (strip_request _ _ Hverb Hne Hrest) by discriminate.
    now apply parse_verb_argument.
Qed.

End Requests.

(** * The protocol properties *)

(** ** Looking up an absent name *)

(** C4. When the parser reads a line as the verb [/get] with argument [N]
    and [N] is not a key of the session store, the only frame sent is
    [Error: Variable '<N>' not found] with its line feed, the loop goes on,
    and the process state (the store with it) is what it was. *)
Theorem get_absent_name_not_found
    (interp : Interpreter) (client_address raw N : string) (p : process) :
  parse (PyStr.strip raw) = ("/get"%string, N) ->
  global_vars p !! N = None ->
  handle_line client_address raw p =
  (Returns Continue,
   ["Error: Variable '" +:+ N +:+ "' not found" +:+ PyStr.nl],
   p).
Proof.
  intros Hparse Habsent.
  rewrite (turn_get client_address raw N p Hparse), get_reply, Habsent.
  reflexivity.
Qed.

Lemma get_absent_name_not_found_example :
  handle_line (interp := Demo.interpreter) Demo.address
    ("/get nosuch" +:+ PyStr.nl) Demo.start =
  (Returns Continue,
   ["Error: Variable 'nosuch' not found" +:+ PyStr.nl],
   Demo.start).
Proof.
  apply (get_absent_name_not_found Demo.interpreter Demo.address
           ("/get nosuch" +:+ PyStr.nl) "nosuch" Demo.start);
    reflexivity.
Defined.

(** ** A [/set] without [=] *)

(** C6. When the argument of [/set] holds no [=], the unpacking of the
    split fails; the failure is caught in the same turn of the loop, the
    only frame sent is a [Server error: ...] line, the process state (the
    store with it) is what it was, and the loop goes on to the next
    command. *)
Theorem set_without_equals_is_reported
    (interp : Interpreter) (client_address raw arg : string) (p : process) :
  parse (PyStr.strip raw) = ("/set"%string, arg) ->
  PyStr.contains PyStr.EQUALS arg = false ->
  handle_line client_address raw p =
  (Returns Continue,
   ["Server error: not enough values to unpack (expected 2, got 1)" +:+ PyStr.nl],
   p).
Proof.
  intros Hparse Harg.
  rewrite (handle_line_dispatch client_address _ _ _ _ Hparse) by discriminate.
  rewrite dispatch_set, (set_unpack_fails arg p Harg). reflexivity.
Qed.

Lemma set_without_equals_example :
  handle_line (interp := Demo.interpreter) Demo.address
    ("/set x 5" +:+ PyStr.nl) Demo.start =
  (Returns Continue,
   ["Server error: not enough values to unpack (expected 2, got 1)" +:+ PyStr.nl],
   Demo.start).
Proof.
  apply (set_without_equals_is_reported Demo.interpreter Demo.address
           ("/set x 5" +:+ PyStr.nl) "x 5" Demo.start);
    reflexivity.
Defined.

(** ** [/eval]: captured output and result *)

(** C7. When the expression of [/eval] returns a value, the text it printed
    is sent first, in one frame that starts with the tag [[PYTHON_PRINT]],
    and the [Result: ...] line is sent after it; when it printed nothing,
    the [Result: ...] line is the only frame. [sys.stdout] is restored and
    the console has received nothing. *)
Theorem eval_sends_output_then_result
    (interp : Interpreter) (client_address raw arg : string) (p : process)
    (v : value) :
  parse (PyStr.strip raw) = ("/eval"%string, arg) ->
  run_result (py_eval arg (global_vars p)) = Returns v ->
  handle_line client_address raw p =
  (Returns Continue,
   match run_stdout (py_eval arg (global_vars p)) with
   | EmptyString => [ "Result: " +:+ render v +:+ PyStr.nl ]
   | out => [ "[PYTHON_PRINT]" +:+ out; "Result: " +:+ render v +:+ PyStr.nl ]
   end,
   Process (run_locals (py_eval arg (global_vars p))) (sys_stdout p)
           (console p) (shutdown_requested p)).
Proof.
  intros Hparse Hres.
  rewrite (turn_eval_returns client_address raw arg p v Hparse Hres).
  destruct (run_stdout (py_eval arg (global_vars p))); reflexivity.
Qed.

Lemma eval_sends_output_then_result_example :
  handle_line (interp := Demo.interpreter) Demo.address
    ("/eval print('hi') or 7" +:+ PyStr.nl) Demo.start =
  (Returns Continue,
   [ "[PYTHON_PRINT]hi" +:+ PyStr.nl; "Result: 7" +:+ PyStr.nl ],
   Demo.start).
Proof.
  apply (eval_sends_output_then_result Demo.interpreter Demo.address
           ("/eval print('hi') or 7" +:+ PyStr.nl) "print('hi') or 7"
           Demo.start (VInt 7));
    reflexivity.
Defined.

(** C2, as the handler has it. When the expression of [/eval] raises an
    [Exception], [sys.stdout] is put back on the stream it was on and the
    only frame sent is [Eval error: <message>]; the text printed before the
    fault is in no frame and has not reached the console: it is dropped
    with the buffer. *)
Theorem eval_error_restores_stdout_and_reports
    (interp : Interpreter) (client_address raw arg : string) (p : process)
    (e : exn) :
  parse (PyStr.strip raw) = ("/eval"%string, arg) ->
  run_result (py_eval arg (global_vars p)) = Raises e ->
  exn_is_Exception e = true ->
  handle_line client_address raw p =
  (Returns Continue,
   [ "Eval error: " +:+ exn_str e +:+ PyStr.nl ],
   Process (run_locals (py_eval arg (global_vars p))) (sys_stdout p)
           (console p) (shutdown_requested p)).
Proof.
  intros Hparse Hres He.
  rewrite (handle_line_dispatch client_address _ _ _ _ Hparse) by discriminate.
  rewrite dispatch_eval, (eval_raises arg p e Hres He). reflexivity.
Qed.

Lemma eval_error_restores_stdout_example :
  handle_line (interp := Demo.interpreter) Demo.address
    ("/eval print('hi') or 1/0" +:+ PyStr.nl) Demo.with_int =
  (Returns Continue, [ "Eval error: division by zero" +:+ PyStr.nl ], Demo.with_int).
Proof.
  apply (eval_error_restores_stdout_and_reports Demo.interpreter Demo.address
           ("/eval print('hi') or 1/0" +:+ PyStr.nl) "print('hi') or 1/0"
           Demo.with_int Demo.ZeroDivisionError);
    reflexivity.
Defined.

(** C2 as worded fails: [print('hi') or 1/0] prints [hi] and then divides
    by zero; the client receives the error line alone. *)
Lemma eval_error_drops_printed_text :
  run_stdout (py_eval (Interpreter := Demo.interpreter)
                "print('hi') or 1/0" (global_vars Demo.start))
  = ("hi" +:+ PyStr.nl)%string
  /\ handle_line (interp := Demo.interpreter) Demo.address
       ("/eval print('hi') or 1/0" +:+ PyStr.nl) Demo.start =
     (Returns Continue, [ "Eval error: division by zero" +:+ PyStr.nl ], Demo.start).
Proof. split; reflexivity. Qed.

(** ** Exceptions in the command loop *)

(** C5, as the handler has it. When the dispatch of a command raises an
    exception that is an instance of [Exception], the inner handler sends
    [Server error: <message>] after the frames already sent, and the loop
    goes on to the next command. An exception that is not an [Exception]
    ([SystemExit], [KeyboardInterrupt]) passes the three levels of handlers:
    nothing more is sent and [handle] ends with it. *)
Theorem command_exception_is_reported
    (interp : Interpreter) (client_address raw cmd arg : string)
    (p p' : process) (e : exn) (out : list string) :
  parse (PyStr.strip raw) = (cmd, arg) ->
  cmd <> EmptyString ->
  dispatch client_address cmd arg (PyStr.strip raw) p = (Raises e, out, p') ->
  handle_line client_address raw p =
  if exn_is_Exception e
  then (Returns Continue, out ++ [ "Server error: " +:+ exn_str e +:+ PyStr.nl ], p')
  else (Raises e, out, p').
Proof.
  intros Hparse Hcmd Hraise.
  rewrite (handle_line_dispatch client_address _ _ _ _ Hparse Hcmd), Hraise.
  reflexivity.
Qed.

Lemma command_exception_is_reported_example :
  handle_line (interp := Demo.interpreter) Demo.address
    ("/set x=1/0" +:+ PyStr.nl) Demo.start =
  (Returns Continue, [] ++ [ "Server error: division by zero" +:+ PyStr.nl ], Demo.start).
Proof.
  apply (command_exception_is_reported Demo.interpreter Demo.address
           ("/set x=1/0" +:+ PyStr.nl) "/set" "x=1/0" Demo.start Demo.start
           Demo.ZeroDivisionError []);
    [reflexivity | discriminate | reflexivity].
Defined.

(** C5 as worded fails: [raise SystemExit] is not an [Exception]; no
    handler of the loop catches it, nothing is sent, and the handler of the
    connection ends, which closes the socket. *)
Lemma system_exit_ends_the_connection :
  handle_line (interp := Demo.interpreter) Demo.address
    ("/exec raise SystemExit" +:+ PyStr.nl) Demo.start =
  (Raises Demo.SystemExit, [], Demo.start)
  /\ srv_conns
       (deliver (interp := Demo.interpreter) 1 ("/exec raise SystemExit" +:+ PyStr.nl)
          (accept 1 Demo.address (Server Demo.start ∅))) !! 1
     = Some (Connection Demo.address ["Hello from Python server!" +:+ PyStr.nl] false).
Proof. split; vm_compute; reflexivity. Qed.

(** ** The rendering of values *)

Lemma render_count_lf (interp : Interpreter) (v : value) :
  PyStr.count_lf (render v) = embedded_lf v.
Proof. destruct v; simpl; try apply two_step_no_lf; reflexivity. Qed.

Lemma result_frame_lines (interp : Interpreter) (v : value) :
  PyStr.count_lf ("Result: " +:+ render v +:+ PyStr.nl) = 1 + embedded_lf v.
Proof.
  rewrite !count_lf_app, render_count_lf. simpl. lia.
Qed.

Lemma get_frame_lines (interp : Interpreter) (v : value) :
  PyStr.count_lf
    match v with
    | VStr s => PyStr.dquote +:+ s +:+ PyStr.dquote +:+ PyStr.nl
    | _ => two_step (py_format v) +:+ PyStr.nl
    end = 1 + embedded_lf v.
Proof.
  destruct v; rewrite !count_lf_app, ?two_step_no_lf; simpl; lia.
Qed.

Lemma get_frame_ends (interp : Interpreter) (v : value) :
  PyStr.ends_with_lf
    match v with
    | VStr s => PyStr.dquote +:+ s +:+ PyStr.dquote +:+ PyStr.nl
    | _ => two_step (py_format v) +:+ PyStr.nl
    end = true.
Proof.
  destruct v; try apply ends_with_lf_line.
  rewrite <- !append_assoc. apply ends_with_lf_line.
Qed.

(** C3, as the handler has it. The [Result: ...] line of [/eval] and the
    reply of [/get] end with a line feed, and hold exactly one line feed
    when the value is not a text: the two replacements leave none inside.
    A text is sent as it is ([Result: <text>], or the text between double
    quotes for [/get]), so the reply holds the line feeds of the text as
    well. *)
Theorem rendered_reply_lines
    (interp : Interpreter) (client_address raw arg : string) (p : process)
    (v : value) :
  (parse (PyStr.strip raw) = ("/eval"%string, arg) ->
   run_result (py_eval arg (global_vars p)) = Returns v ->
   exists (before : list string) (frame : string) (p' : process),
     handle_line client_address raw p = (Returns Continue, before ++ [frame], p')
     /\ frame = "Result: " +:+ render v +:+ PyStr.nl
     /\ PyStr.ends_with_lf frame = true
     /\ PyStr.count_lf frame = 1 + embedded_lf v)
  /\
  (parse (PyStr.strip raw) = ("/get"%string, arg) ->
   global_vars p !! arg = Some v ->
   exists frame : string,
     handle_line client_address raw p = (Returns Continue, [frame], p)
     /\ frame = match v with
                | VStr s => PyStr.dquote +:+ s +:+ PyStr.dquote +:+ PyStr.nl
                | _ => two_step (py_format v) +:+ PyStr.nl
                end
     /\ PyStr.ends_with_lf frame = true
     /\ PyStr.count_lf frame = 1 + embedded_lf v).
Proof.
  split.
  - intros Hparse Hres.
    rewrite (turn_eval_returns client_address raw arg p v Hparse Hres).
    eexists _, _, _. split; [reflexivity |]. split; [reflexivity |]. split.
    + rewrite <- append_assoc. apply ends_with_lf_line.
    + apply result_frame_lines.
  - intros Hparse Hfound.
    rewrite (turn_get client_address raw arg p Hparse), get_reply, Hfound.
    eexists. split; [reflexivity |]. split; [| split].
    + destruct v; reflexivity.
    + apply get_frame_ends.
    + apply get_frame_lines.
Qed.

Lemma rendered_reply_lines_example :
  (exists (before : list string) (frame : string) (p' : process),
     handle_line (interp := Demo.interpreter) Demo.address
       ("/eval np.array([[1, 2], [3, 4]])" +:+ PyStr.nl) Demo.start
     = (Returns Continue, before ++ [frame], p')
     /\ frame = ("Result: [[1 2]; [3 4]]" +:+ PyStr.nl)%string
     /\ PyStr.ends_with_lf frame = true
     /\ PyStr.count_lf frame = 1)
  /\
  (exists frame : string,
     handle_line (interp := Demo.interpreter) Demo.address
       ("/get n" +:+ PyStr.nl) Demo.with_int
     = (Returns Continue, [frame], Demo.with_int)
     /\ frame = ("5" +:+ PyStr.nl)%string
     /\ PyStr.ends_with_lf frame = true
     /\ PyStr.count_lf frame = 1).
Proof.
  split.
  - apply (proj1 (rendered_reply_lines Demo.interpreter Demo.address
                    ("/eval np.array([[1, 2], [3, 4]])" +:+ PyStr.nl)
                    "np.array([[1, 2], [3, 4]])" Demo.start
                    Demo.array_2x2));
      reflexivity.
  - apply (proj2 (rendered_reply_lines Demo.interpreter Demo.address
                    ("/get n" +:+ PyStr.nl) "n" Demo.with_int (VInt 5)));
      reflexivity.
Defined.

(** C3 as worded fails on a text: [/get] sends a stored text between
    double quotes with its line feed inside, so the reply spans two
    lines. *)
Lemma text_reply_keeps_line_feed :
  handle_line (interp := Demo.interpreter) Demo.address ("/get s" +:+ PyStr.nl)
    Demo.with_text =
  (Returns Continue,
   [ PyStr.dquote +:+ "a" +:+ PyStr.nl +:+ "b" +:+ PyStr.dquote +:+ PyStr.nl ],
   Demo.with_text)
  /\ PyStr.count_lf
       (PyStr.dquote +:+ "a" +:+ PyStr.nl +:+ "b" +:+ PyStr.dquote +:+ PyStr.nl) = 2.
Proof. split; vm_compute; reflexivity. Qed.

(** C10. For a value that is not a text, the text sent by [/eval] after
    [Result: ] and the text sent by [/get] is the printed form of the value
    with every [']'] followed by a line feed replaced by [];] and then
    every line feed left replaced by a comma, which is what the one-pass
    rule [flatten_text] computes. The reply is a function of the printed
    form: two values printed alike are rendered alike. *)
Theorem non_text_value_is_flattened_in_two_steps
    (interp : Interpreter) (client_address raw arg : string) (p : process)
    (v : value) :
  isinstance_str v = false ->
  let flat :=
    PyStr.replace PyStr.nl ","
      (PyStr.replace (String PyStr.RBRACKET PyStr.nl) "];" (py_format v)) in
  flat = flatten_text (py_format v)
  /\ (parse (PyStr.strip raw) = ("/eval"%string, arg) ->
      run_result (py_eval arg (global_vars p)) = Returns v ->
      exists (before : list string) (p' : process),
        handle_line client_address raw p =
        (Returns Continue, before ++ ["Result: " +:+ flat +:+ PyStr.nl], p'))
  /\ (parse (PyStr.strip raw) = ("/get"%string, arg) ->
      global_vars p !! arg = Some v ->
      handle_line client_address raw p =
      (Returns Continue, [flat +:+ PyStr.nl], p))
  /\ (forall v' : value,
        isinstance_str v' = false -> py_format v' = py_format v ->
        render v' = flat).
Proof.
  intros Hv flat. split; [apply two_step_flatten_text |]. split; [| split].
  - intros Hparse Hres.
    rewrite (turn_eval_returns client_address raw arg p v Hparse Hres).
    eexists _, _. destruct v; try discriminate; reflexivity.
  - intros Hparse Hfound.
    rewrite (turn_get client_address raw arg p Hparse), get_reply, Hfound.
    destruct v; try discriminate; reflexivity.
  - intros v' Hv' Heq. subst flat. rewrite <- Heq.
    destruct v'; try discriminate; reflexivity.
Qed.

Lemma non_text_value_is_flattened_example :
  handle_line (interp := Demo.interpreter) Demo.address ("/get a" +:+ PyStr.nl)
    Demo.with_array =
  (Returns Continue, [ "[[1 2]; [3 4]]" +:+ PyStr.nl ], Demo.with_array).
Proof.
  apply (proj1 (proj2 (proj2
           (non_text_value_is_flattened_in_two_steps Demo.interpreter Demo.address
              ("/get a" +:+ PyStr.nl) "a" Demo.with_array
              Demo.array_2x2 eq_refl))));
    reflexivity.
Defined.

(** ** The end of a connection *)

(** C8. On an open connection, a line that is empty once stripped and a
    line whose verb is [/exit] both end the handler of that connection
    without a frame: what the client has received is what it had, the
    socket is closed, the store and the shutdown flag are what they were,
    and every other connection is as it was. After the empty line the whole
    process state is unchanged; [/exit] writes its notice to the standard
    output of the server. *)
Theorem blank_line_and_exit_end_connection_quietly
    (interp : Interpreter) (srv : server) (fd : nat) (c : connection)
    (raw : string) :
  srv_conns srv !! fd = Some c ->
  conn_open c = true ->
  PyStr.strip raw = EmptyString \/ fst (parse (PyStr.strip raw)) = "/exit"%string ->
  srv_conns (deliver fd raw srv)
  = <[fd := Connection (conn_address c) (conn_received c) false]> (srv_conns srv)
  /\ global_vars (srv_process (deliver fd raw srv)) = global_vars (srv_process srv)
  /\ shutdown_requested (srv_process (deliver fd raw srv))
     = shutdown_requested (srv_process srv)
  /\ (PyStr.strip raw = EmptyString ->
      srv_process (deliver fd raw srv) = srv_process srv)
  /\ (forall fd' : nat, fd' <> fd ->
        srv_conns (deliver fd raw srv) !! fd' = srv_conns srv !! fd').
Proof.
  intros Hfd Hopen Hline. unfold deliver. rewrite Hfd, Hopen.
  destruct Hline as [Hblank | Hexit].
  - rewrite (handle_line_blank (conn_address c) raw _ Hblank). cbn.
    rewrite app_nil_r. repeat split; try reflexivity.
    intros fd' Hne. now rewrite lookup_insert_ne.
  - assert (Hparse : parse (PyStr.strip raw)
                     = ("/exit"%string, snd (parse (PyStr.strip raw)))).
    { rewrite <- Hexit. now destruct (parse (PyStr.strip raw)). }
    rewrite (turn_exit (conn_address c) raw _ _ Hparse). cbn.
    rewrite app_nil_r, write_stdout_global_vars, write_stdout_shutdown.
    repeat split; try reflexivity.
    + intros Hblank. rewrite Hblank in Hexit. discriminate.
    + intros fd' Hne. now rewrite lookup_insert_ne.
Qed.

Lemma blank_line_and_exit_example :
  (srv_conns (deliver (interp := Demo.interpreter) 1 PyStr.nl Demo.two_clients) !! 2
   = srv_conns Demo.two_clients !! 2
   /\ srv_conns (deliver (interp := Demo.interpreter) 1 PyStr.nl Demo.two_clients) !! 1
     = Some (Connection Demo.address ["Hello from Python server!" +:+ PyStr.nl] false))
  /\
  (srv_conns (deliver (interp := Demo.interpreter) 1 ("/exit" +:+ PyStr.nl)
                Demo.two_clients) !! 2
   = srv_conns Demo.two_clients !! 2
   /\ srv_conns (deliver (interp := Demo.interpreter) 1 ("/exit" +:+ PyStr.nl)
                  Demo.two_clients) !! 1
     = Some (Connection Demo.address ["Hello from Python server!" +:+ PyStr.nl] false)).
Proof.
  pose proof (blank_line_and_exit_end_connection_quietly Demo.interpreter
                Demo.two_clients 1
                (Connection Demo.address ["Hello from Python server!" +:+ PyStr.nl] true)
                PyStr.nl eq_refl eq_refl (or_introl eq_refl)) as Hblank.
  pose proof (blank_line_and_exit_end_connection_quietly Demo.interpreter
                Demo.two_clients 1
                (Connection Demo.address ["Hello from Python server!" +:+ PyStr.nl] true)
                ("/exit" +:+ PyStr.nl) eq_refl eq_refl (or_intror eq_refl)) as Hexit.
  split.
  - destruct Hblank as (Hconns & _ & _ & _ & Hother). split.
    + apply Hother. discriminate.
    + rewrite Hconns. apply lookup_insert_eq.
  - destruct Hexit as (Hconns & _ & _ & _ & Hother). split.
    + apply Hother. discriminate.
    + rewrite Hconns. apply lookup_insert_eq.
Defined.

(** ** The key of the lookup: [/get] against [/get_json] *)

(** C9. [/get] looks up the argument as the parser gives it, the rest of
    the line after the first space, blanks included; [/get_json] looks up
    the argument stripped. So when a padded argument is not itself a key
    while its stripped form is bound, [/get] answers that the padded name
    is not found and [/get_json] answers with the serialisation of the
    value bound to the stripped name. *)
Theorem get_keeps_blanks_get_json_strips
    (interp : Interpreter) (client_address raw_get raw_json arg : string)
    (p : process) (v : value) :
  parse (PyStr.strip raw_get) = ("/get"%string, arg) ->
  parse (PyStr.strip raw_json) = ("/get_json"%string, arg) ->
  handle_line client_address raw_get p =
    (Returns Continue,
     [match global_vars p !! arg with
      | Some (VStr s) => PyStr.dquote +:+ s +:+ PyStr.dquote +:+ PyStr.nl
      | Some w => two_step (py_format w) +:+ PyStr.nl
      | None => "Error: Variable '" +:+ arg +:+ "' not found" +:+ PyStr.nl
      end], p)
  /\ handle_line client_address raw_json p =
    (Returns Continue,
     [match global_vars p !! PyStr.strip arg with
      | Some w =>
          match json_dumps w with
          | Success json_str => json_str +:+ PyStr.nl
          | Failure e => "Get JSON error: " +:+ e +:+ PyStr.nl
          end
      | None =>
          "Error: Variable '" +:+ PyStr.strip arg +:+ "' not found" +:+ PyStr.nl
      end], p)
  /\ (global_vars p !! arg = None ->
      global_vars p !! PyStr.strip arg = Some v ->
      handle_line client_address raw_get p =
        (Returns Continue,
         ["Error: Variable '" +:+ arg +:+ "' not found" +:+ PyStr.nl], p)
      /\ handle_line client_address raw_json p =
        (Returns Continue,
         [match json_dumps v with
          | Success json_str => json_str +:+ PyStr.nl
          | Failure e => "Get JSON error: " +:+ e +:+ PyStr.nl
          end], p)).
Proof.
  intros Hget Hjson.
  rewrite (turn_get client_address raw_get arg p Hget), get_reply.
  rewrite (turn_get_json client_address raw_json arg p Hjson), get_json_reply.
  split; [reflexivity |]. split; [reflexivity |].
  intros Hraw Hstripped. now rewrite Hraw, Hstripped.
Qed.

Lemma get_keeps_blanks_example :
  handle_line (interp := Demo.interpreter) Demo.address
    ("/get   n" +:+ PyStr.nl) Demo.with_int =
    (Returns Continue,
     ["Error: Variable '  n' not found" +:+ PyStr.nl], Demo.with_int)
  /\ handle_line (interp := Demo.interpreter) Demo.address
       ("/get_json   n" +:+ PyStr.nl) Demo.with_int =
     (Returns Continue, ["5" +:+ PyStr.nl], Demo.with_int).
Proof.
  apply (proj2 (proj2
           (get_keeps_blanks_get_json_strips Demo.interpreter Demo.address
              ("/get   n" +:+ PyStr.nl) ("/get_json   n" +:+ PyStr.nl) "  n"
              Demo.with_int (VInt 5) eq_refl eq_refl)));
    reflexivity.
Defined.

(** ** [/set_json] then [/get_json] *)

Lemma demo_int_literal_decimal (n : Z) : Demo.int_literal (Demo.decimal n) = Some n.
Proof.
  unfold Demo.int_literal, Demo.decimal.
  rewrite NilZero.isi.
  - now rewrite DecimalZ.of_to, String.eqb_refl.
  - destruct n; simpl; try discriminate.
    intros Heq. inversion Heq as [Hnil].
    now apply DecimalPos.Unsigned.to_uint_nonnil in Hnil.
  - destruct n; simpl; try discriminate.
    intros Heq. inversion Heq as [Hnil].
    now apply DecimalPos.Unsigned.to_uint_nonnil in Hnil.
Qed.

(** The scripted codec keeps the contract of [json]. *)
Lemma demo_json_round_trips : json_round_trips Demo.interpreter.
Proof.
  intros s v. cbn [json_loads json_dumps Demo.interpreter]. unfold Demo.loads.
  destruct (Demo.int_literal s) as [n|] eqn:Hlit.
  - intros Hv. inversion Hv; subst. exists (Demo.decimal n).
    split; [reflexivity |]. now rewrite demo_int_literal_decimal.
  - destruct (String.eqb s "null"); [| destruct (String.eqb s "true");
      [| destruct (String.eqb s "false")]];
      intros Hv; inversion Hv; subst; eexists; split; reflexivity.
Qed.

(** C1. Let [N] be a name without a space and without blanks at its ends,
    and [js] a non-empty JSON text that does not end with a blank and that
    [json.loads] reads as the value [v]. Then the line [/set_json N js] is
    answered by [Set JSON '<N>' success] and binds [N] to [v], and the line
    [/get_json N] sent next, on any connection, is answered by one line:
    the text [json.dumps] writes for [v], which [json.loads] reads back as
    [v]. *)
Theorem set_json_then_get_json_round_trip
    (interp : Interpreter) (client_address client_address' N js : string)
    (v : value) (p : process) :
  json_round_trips interp ->
  PyStr.contains PyStr.SPACE N = false ->
  PyStr.strip N = N ->
  PyStr.rstrip js = js ->
  js <> EmptyString ->
  json_loads js = Success v ->
  exists (t : string) (p1 : process),
    handle_line client_address ("/set_json " +:+ N +:+ " " +:+ js +:+ PyStr.nl) p
    = (Returns Continue, ["Set JSON '" +:+ N +:+ "' success" +:+ PyStr.nl], p1)
    /\ global_vars p1 !! N = Some v
    /\ handle_line client_address' ("/get_json " +:+ N +:+ PyStr.nl) p1
       = (Returns Continue, [t +:+ PyStr.nl], p1)
    /\ json_dumps v = Success t
    /\ json_loads t = Success v.
Proof.
  intros Hjson Hspace Hname Htext Hne Hloads.
  destruct (Hjson js v Hloads) as (t & Hdumps & Hback).
  exists t, (set_global_vars (<[N := v]> (global_vars p)) p).
  assert (Harg : PyStr.rstrip (N +:+ " " +:+ js) = N +:+ " " +:+ js).
  { assert (Hsp : PyStr.rstrip (" " +:+ js) = " " +:+ js)
      by (rewrite rstrip_app_kept; rewrite Htext; [reflexivity | assumption]).
    rewrite rstrip_app_kept; rewrite Hsp; [reflexivity | discriminate]. }
  assert (Hset : parse (PyStr.strip ("/set_json " +:+ N +:+ " " +:+ js +:+ PyStr.nl))
                 = ("/set_json"%string, N +:+ " " +:+ js)).
  { rewrite <- (parse_request "/set_json" (N +:+ " " +:+ js)); try easy.
    now rewrite !append_assoc. }
  assert (Hget : parse (PyStr.strip ("/get_json " +:+ N +:+ PyStr.nl))
                 = ("/get_json"%string, N)).
  { rewrite <- (parse_request "/get_json" N); try easy.
    now apply rstrip_lstrip_fixed. }
  split; [| split; [| split; [| split]]].
  - rewrite (handle_line_dispatch client_address _ _ _ _ Hset) by discriminate.
    rewrite dispatch_set_json.
    change (N +:+ " " +:+ js) with (N +:+ String PyStr.SPACE js).
    rewrite (set_json_stores N js p v Hspace Hloads), Hname. reflexivity.
  - apply lookup_insert_eq.
  - rewrite (turn_get_json client_address' _ _ _ Hget), get_json_reply, Hname.
    cbn [global_vars set_global_vars]. rewrite lookup_insert_eq, Hdumps.
    reflexivity.
  - exact Hdumps.
  - exact Hback.
Qed.

Lemma set_json_then_get_json_example :
  exists (t : string) (p1 : process),
    handle_line (interp := Demo.interpreter) Demo.address
      ("/set_json " +:+ "x" +:+ " " +:+ "5" +:+ PyStr.nl) Demo.start
    = (Returns Continue, ["Set JSON '" +:+ "x" +:+ "' success" +:+ PyStr.nl], p1)
    /\ global_vars p1 !! "x"%string = Some (VInt 5)
    /\ handle_line (interp := Demo.interpreter) "('127.0.0.1', 50001)"
         ("/get_json " +:+ "x" +:+ PyStr.nl) p1
       = (Returns Continue, [t +:+ PyStr.nl], p1)
    /\ json_dumps (Interpreter := Demo.interpreter) (VInt 5) = Success t
    /\ json_loads (Interpreter := Demo.interpreter) t = Success (VInt 5).
Proof.
  apply (set_json_then_get_json_round_trip Demo.interpreter Demo.address
           "('127.0.0.1', 50001)" "x" "5" (VInt 5) Demo.start
           demo_json_round_trips);
    [reflexivity | reflexivity | reflexivity | discriminate | reflexivity].
Defined.

(** * Further properties of the handler *)

(** ** The line parser (lines 37-48) *)

Section ParserFacts.

Import PyStr.

Lemma lstrip_blank (s : string) : lstrip s = EmptyString <-> all_blank s = true.
Proof.
  induction s as [|c s IH]; simpl; [tauto |].
  destruct (is_space c); simpl; [exact IH |]. split; discriminate.
Qed.

Lemma rstrip_blank (s : string) : rstrip s = EmptyString <-> all_blank s = true.
Proof.
  induction s as [|c s IH]; simpl; [tauto |].
  destruct (rstrip s) as [|d r] eqn:E.
  - destruct (is_space c); simpl; [| split; discriminate].
    split; intros _; [now apply IH | reflexivity].
  - split; [discriminate |]. intros Hb. apply andb_true_iff in Hb as [_ Hb].
    apply IH in Hb. discriminate.
Qed.

Lemma lstrip_head (s t : string) (c : ascii) :
  lstrip s = String c t -> is_space c = false.
Proof.
  induction s as [|d s IH]; simpl; [discriminate |].
  destruct (is_space d) eqn:Ed; [exact IH |].
  intros Heq. inversion Heq; subst. exact Ed.
Qed.

Lemma rstrip_head (s t : string) (c : ascii) :
  rstrip s = String c t -> exists s', s = String c s'.
Proof.
  destruct s as [|d s]; simpl; [discriminate |].
  destruct (rstrip s); [destruct (is_space d) |];
    intros Heq; inversion Heq; subst; eauto.
Qed.

Lemma strip_head (s t : string) (c : ascii) :
  strip s = String c t -> is_space c = false.
Proof.
  unfold strip. intros Hs. destruct (rstrip_head _ _ _ Hs) as [s' Hl].
  now apply lstrip_head in Hl.
Qed.

Lemma strip_blank (s : string) : strip s = EmptyString <-> all_blank s = true.
Proof.
  unfold strip. split.
  - intros Hs. apply lstrip_blank. apply rstrip_blank in Hs.
    destruct (lstrip s) as [|c t] eqn:E; [reflexivity |].
    apply lstrip_head in E. simpl in Hs. now rewrite E in Hs.
  - intros Hs. apply lstrip_blank in Hs. now rewrite Hs.
Qed.

Lemma cut_some (sep : ascii) (s a b : string) :
  cut sep s = Some (a, b) ->
  s = a +:+ String sep b /\ contains sep a = false.
Proof.
  revert a b. induction s as [|c s IH]; simpl; [discriminate |]. intros a b.
  destruct (Ascii.eqb_spec c sep) as [->|Hc].
  - intros Heq. inversion Heq; subst. split; reflexivity.
  - destruct (cut sep s) as [[a' b']|]; [| discriminate].
    intros Heq. inversion Heq; subst.
    destruct (IH a' b eq_refl) as [-> Ha']. split; [reflexivity |].
    simpl. rewrite Ha', orb_false_r.
    destruct (Ascii.eqb_spec c sep); [contradiction | reflexivity].
Qed.

Lemma cut_none (sep : ascii) (s : string) :
  cut sep s = None -> contains sep s = false.
Proof.
  induction s as [|c s IH]; simpl; [reflexivity |].
  destruct (Ascii.eqb c sep); [discriminate |].
  destruct (cut sep s) as [[a b]|]; [discriminate |]. intros _. now apply IH.
Qed.

End ParserFacts.

(** X1. [parse] cuts a command line at its first space and nowhere else:
    the verb holds no space; a line with a space is the verb, one space
    and the argument, so spaces after the first stay in the argument; a
    line without a space is all verb, with the empty argument. *)
Theorem parse_cuts_at_first_space (line : string) :
  PyStr.contains PyStr.SPACE (fst (parse line)) = false
  /\ (if PyStr.contains PyStr.SPACE line
      then line = fst (parse line) +:+ " " +:+ snd (parse line)
      else parse line = (line, EmptyString)).
Proof.
  unfold parse, PyStr.split1.
  destruct (PyStr.cut PyStr.SPACE line) as [[a b]|] eqn:Hcut.
  - destruct (cut_some _ _ _ _ Hcut) as [Hline Ha]. cbn [nth fst snd second_or_empty].
    split; [exact Ha |]. rewrite (cut_found _ _ _ _ Hcut). exact Hline.
  - pose proof (cut_none _ _ Hcut) as Hline. cbn. rewrite Hline.
    split; reflexivity.
Qed.

Lemma verb_head (raw : string) :
  all_blank raw = false ->
  exists (c : ascii) (rest : string),
    fst (parse (PyStr.strip raw)) = String c rest /\ PyStr.is_space c = false.
Proof.
  intros Hraw. destruct (PyStr.strip raw) as [|c t] eqn:Hs.
  - apply strip_blank in Hs. congruence.
  - pose proof (strip_head _ _ _ Hs) as Hc.
    unfold parse, PyStr.split1. simpl PyStr.cut.
    destruct (Ascii.eqb_spec c PyStr.SPACE) as [->|_]; [discriminate |].
    destruct (PyStr.cut PyStr.SPACE t) as [[a b]|]; cbn; eauto.
Qed.

(** X2. A line that is not blank reaches the dispatch with a verb that is
    not empty and starts with a character that is not a blank: the empty
    verb is never dispatched. *)
Theorem dispatched_verb_is_not_empty (raw : string) :
  all_blank raw = false ->
  exists (c : ascii) (rest : string),
    fst (parse (PyStr.strip raw)) = String c rest /\ PyStr.is_space c = false.
Proof. apply verb_head. Qed.

Lemma dispatched_verb_is_not_empty_example :
  exists (c : ascii) (rest : string),
    fst (parse (PyStr.strip ("  /get  x " +:+ PyStr.nl))) = String c rest
    /\ PyStr.is_space c = false.
Proof.
  apply (dispatched_verb_is_not_empty ("  /get  x " +:+ PyStr.nl)). reflexivity.
Defined.

(** X3. A line made of blanks only (spaces, tabs, the line feed alone)
    ends the loop like the end of the stream: nothing is sent and the
    process state is what it was. *)
Theorem blank_line_leaves_the_loop
    (interp : Interpreter) (client_address raw : string) (p : process) :
  all_blank raw = true ->
  handle_line client_address raw p = (Returns Break, [], p).
Proof.
  intros Hraw. apply handle_line_blank. now apply strip_blank.
Qed.

Lemma blank_line_leaves_the_loop_example :
  handle_line (interp := Demo.interpreter) Demo.address
    (String " " (String "009" PyStr.nl)) Demo.with_int
  = (Returns Break, [], Demo.with_int).
Proof.
  apply (blank_line_leaves_the_loop Demo.interpreter Demo.address
           (String " " (String "009" PyStr.nl)) Demo.with_int).
  reflexivity.
Defined.

(** ** The turn of a line that is not blank *)

Section TurnCases.

Context {interp : Interpreter}.
Variable client_address : string.

Lemma handle_line_cases (raw : string) (p : process) :
  all_blank raw = false ->
  handle_line client_address raw p =
  after_dispatch
    (dispatch client_address (fst (parse (PyStr.strip raw)))
       (snd (parse (PyStr.strip raw))) (PyStr.strip raw) p).
Proof.
  intros Hraw. apply handle_line_dispatch.
  - now destruct (parse (PyStr.strip raw)).
  - destruct (verb_head raw Hraw) as (c & rest & Hverb & _).
    rewrite Hverb. discriminate.
Qed.

Lemma exec_run (arg : string) (p : process) :
  cmd_exec arg p =
  match run_result (py_exec arg (global_vars p)) with
  | Returns _ =>
      (Returns Continue, ["Exec success" +:+ PyStr.nl],
       write_stdout (run_stdout (py_exec arg (global_vars p)))
         (set_global_vars (run_locals (py_exec arg (global_vars p))) p))
  | Raises e =>
      (Raises e, [],
       write_stdout (run_stdout (py_exec arg (global_vars p)))
         (set_global_vars (run_locals (py_exec arg (global_vars p))) p))
  end.
Proof.
  unfold cmd_exec, bind, call_exec, sendall, ret.
  destruct (run_result (py_exec arg (global_vars p))); reflexivity.
Qed.

Lemma set_run (lhs expr : string) (p : process) :
  PyStr.contains PyStr.EQUALS lhs = false ->
  cmd_set (lhs +:+ String PyStr.EQUALS expr) p =
  match run_result (py_eval expr (global_vars p)) with
  | Returns v =>
      (Returns Continue,
       ["Set '" +:+ PyStr.strip lhs +:+ "' to " +:+ py_repr v
        +:+ " success" +:+ PyStr.nl],
       set_global_vars
         (<[PyStr.strip lhs := v]> (run_locals (py_eval expr (global_vars p))))
         (write_stdout (run_stdout (py_eval expr (global_vars p)))
            (set_global_vars (run_locals (py_eval expr (global_vars p))) p)))
  | Raises e =>
      (Raises e, [],
       write_stdout (run_stdout (py_eval expr (global_vars p)))
         (set_global_vars (run_locals (py_eval expr (global_vars p))) p))
  end.
Proof.
  intros Hlhs. unfold cmd_set. rewrite (split1_first _ _ _ Hlhs).
  unfold bind, unpack2, ret, call_eval, store_var, sendall. cbn.
  destruct (run_result (py_eval expr (global_vars p))); cbn; [| reflexivity].
  now rewrite write_stdout_global_vars.
Qed.

Lemma set_json_refused (name text msg : string) (p : process) :
  PyStr.contains PyStr.SPACE name = false ->
  json_loads text = Failure msg ->
  cmd_set_json (name +:+ String PyStr.SPACE text) p =
  (Returns Continue, ["Set JSON error: " +:+ msg +:+ PyStr.nl], p).
Proof.
  intros Hname Hloads. unfold cmd_set_json. rewrite (split1_first _ _ _ Hname).
  unfold bind, unpack2, ret, sendall. cbn. now rewrite Hloads.
Qed.

Lemma set_json_unpack_fails (arg : string) (p : process) :
  PyStr.contains PyStr.SPACE arg = false ->
  cmd_set_json arg p =
  (Raises (ValueError "not enough values to unpack (expected 2, got 1)"), [], p).
Proof.
  intros Harg. unfold cmd_set_json. now rewrite (split1_absent _ _ Harg).
Qed.

End TurnCases.

(** ** [/set] and [/exec] (lines 75-77 and 91-96) *)

(** X4. [/set] cuts its argument at the first [=], evaluates the right
    side as it is and binds the left side stripped; the reply names the
    stripped name and the [repr] of the value. A [/get] of that name sent
    next, on any connection, is answered with the value: between double
    quotes when it is a text, through the two replacements otherwise. *)
Theorem set_then_get_renders_the_value
    (interp : Interpreter)
    (client_address client_address' raw_set raw_get lhs expr : string)
    (p : process) (v : value) :
  parse (PyStr.strip raw_set) = ("/set"%string, lhs +:+ String PyStr.EQUALS expr) ->
  PyStr.contains PyStr.EQUALS lhs = false ->
  run_result (py_eval expr (global_vars p)) = Returns v ->
  parse (PyStr.strip raw_get) = ("/get"%string, PyStr.strip lhs) ->
  exists p1 : process,
    handle_line client_address raw_set p =
    (Returns Continue,
     ["Set '" +:+ PyStr.strip lhs +:+ "' to " +:+ py_repr v +:+ " success" +:+ PyStr.nl],
     p1)
    /\ global_vars p1 =
       <[PyStr.strip lhs := v]> (run_locals (py_eval expr (global_vars p)))
    /\ handle_line client_address' raw_get p1 =
       (Returns Continue,
        [match v with
         | VStr s => PyStr.dquote +:+ s +:+ PyStr.dquote +:+ PyStr.nl
         | _ => two_step (py_format v) +:+ PyStr.nl
         end],
        p1).
Proof.
  intros Hset Hlhs Hres Hget. eexists. split; [| split].
  - rewrite (handle_line_dispatch client_address _ _ _ _ Hset) by discriminate.
    rewrite dispatch_set, (set_run lhs expr p Hlhs), Hres. reflexivity.
  - reflexivity.
  - rewrite (turn_get client_address' raw_get _ _ Hget), get_reply.
    cbn [global_vars set_global_vars]. rewrite lookup_insert_eq.
    destruct v; reflexivity.
Qed.

Lemma set_then_get_example :
  exists p1 : process,
    handle_line (interp := Demo.interpreter) Demo.address
      ("/set  x =5" +:+ PyStr.nl) Demo.start =
    (Returns Continue, ["Set 'x' to 5 success" +:+ PyStr.nl], p1)
    /\ global_vars p1 = <["x"%string := VInt 5]> ∅
    /\ handle_line (interp := Demo.interpreter) "('127.0.0.1', 50001)"
         ("/get x" +:+ PyStr.nl) p1 =
       (Returns Continue, ["5" +:+ PyStr.nl], p1).
Proof.
  apply (set_then_get_renders_the_value Demo.interpreter Demo.address
           "('127.0.0.1', 50001)" ("/set  x =5" +:+ PyStr.nl) ("/get x" +:+ PyStr.nl)
           " x " "5" Demo.start (VInt 5));
    reflexivity.
Defined.

(** X5. When the expression of [/set] raises an [Exception], the client
    receives [Server error: <message>] (not [Eval error:]), the loop goes
    on, and the name is not bound: the store is the one the evaluation
    left. *)
Theorem set_error_binds_nothing
    (interp : Interpreter) (client_address raw lhs expr : string)
    (p : process) (e : exn) :
  parse (PyStr.strip raw) = ("/set"%string, lhs +:+ String PyStr.EQUALS expr) ->
  PyStr.contains PyStr.EQUALS lhs = false ->
  run_result (py_eval expr (global_vars p)) = Raises e ->
  exn_is_Exception e = true ->
  exists p' : process,
    handle_line client_address raw p =
    (Returns Continue, ["Server error: " +:+ exn_str e +:+ PyStr.nl], p')
    /\ global_vars p' = run_locals (py_eval expr (global_vars p)).
Proof.
  intros Hset Hlhs Hres He. eexists. split.
  - rewrite (handle_line_dispatch client_address _ _ _ _ Hset) by discriminate.
    rewrite dispatch_set, (set_run lhs expr p Hlhs), Hres.
    unfold after_dispatch. rewrite He. reflexivity.
  - apply write_stdout_global_vars.
Qed.

Lemma set_error_binds_nothing_example :
  exists p' : process,
    handle_line (interp := Demo.interpreter) Demo.address
      ("/set n=1/0" +:+ PyStr.nl) Demo.with_int =
    (Returns Continue, ["Server error: division by zero" +:+ PyStr.nl], p')
    /\ global_vars p' = {[ "n"%string := VInt 5 ]}.
Proof.
  apply (set_error_binds_nothing Demo.interpreter Demo.address
           ("/set n=1/0" +:+ PyStr.nl) "n" "1/0" Demo.with_int
           Demo.ZeroDivisionError);
    reflexivity.
Defined.

(** X6. [/exec] does not capture output: when the statements end normally
    the only frame is [Exec success], and what they printed is on the
    console of the server, after what was there. *)
Theorem exec_output_stays_on_the_console
    (interp : Interpreter) (client_address raw arg : string) (p : process)
    (u : unit) :
  parse (PyStr.strip raw) = ("/exec"%string, arg) ->
  run_result (py_exec arg (global_vars p)) = Returns u ->
  sys_stdout p = Console ->
  handle_line client_address raw p =
  (Returns Continue, ["Exec success" +:+ PyStr.nl],
   Process (run_locals (py_exec arg (global_vars p))) Console
           (console p +:+ run_stdout (py_exec arg (global_vars p)))
           (shutdown_requested p)).
Proof.
  intros Hparse Hres Hout.
  rewrite (handle_line_dispatch client_address _ _ _ _ Hparse) by discriminate.
  rewrite dispatch_exec, exec_run, Hres.
  unfold write_stdout, set_global_vars. cbn. rewrite Hout. reflexivity.
Qed.

Lemma exec_output_stays_on_the_console_example :
  handle_line (interp := Demo.interpreter) Demo.address
    ("/exec print('hi')" +:+ PyStr.nl) Demo.start =
  (Returns Continue, ["Exec success" +:+ PyStr.nl],
   Process ∅ Console ("hi" +:+ PyStr.nl) false).
Proof.
  apply (exec_output_stays_on_the_console Demo.interpreter Demo.address
           ("/exec print('hi')" +:+ PyStr.nl) "print('hi')" Demo.start tt);
    reflexivity.
Defined.

(** X7. When the statements of [/exec] raise an [Exception], the only
    frame is [Server error: <message>] and the loop goes on; the bindings
    the statements made before the fault are kept. *)
Theorem exec_error_is_reported
    (interp : Interpreter) (client_address raw arg : string) (p : process)
    (e : exn) :
  parse (PyStr.strip raw) = ("/exec"%string, arg) ->
  run_result (py_exec arg (global_vars p)) = Raises e ->
  exn_is_Exception e = true ->
  exists p' : process,
    handle_line client_address raw p =
    (Returns Continue, ["Server error: " +:+ exn_str e +:+ PyStr.nl], p')
    /\ global_vars p' = run_locals (py_exec arg (global_vars p)).
Proof.
  intros Hparse Hres He. eexists. split.
  - rewrite (handle_line_dispatch client_address _ _ _ _ Hparse) by discriminate.
    rewrite dispatch_exec, exec_run, Hres.
    unfold after_dispatch. rewrite He. reflexivity.
  - apply write_stdout_global_vars.
Qed.

Lemma exec_error_is_reported_example :
  exists p' : process,
    handle_line (interp := Script.interpreter) Demo.address
      ("/exec print('hi'); 1/0" +:+ PyStr.nl) Demo.with_int =
    (Returns Continue, ["Server error: division by zero" +:+ PyStr.nl], p')
    /\ global_vars p' = {[ "n"%string := VInt 5 ]}.
Proof.
  apply (exec_error_is_reported Script.interpreter Demo.address
           ("/exec print('hi'); 1/0" +:+ PyStr.nl) "print('hi'); 1/0"
           Demo.with_int Demo.ZeroDivisionError);
    reflexivity.
Defined.

(** ** The failures of [/set_json] (lines 98-106) *)

(** X8. When [json.loads] rejects the text of [/set_json], the only frame
    is [Set JSON error: <message>], nothing is bound and the loop goes
    on. *)
Theorem set_json_bad_text_binds_nothing
    (interp : Interpreter) (client_address raw name text msg : string)
    (p : process) :
  parse (PyStr.strip raw) = ("/set_json"%string, name +:+ String PyStr.SPACE text) ->
  PyStr.contains PyStr.SPACE name = false ->
  json_loads text = Failure msg ->
  handle_line client_address raw p =
  (Returns Continue, ["Set JSON error: " +:+ msg +:+ PyStr.nl], p).
Proof.
  intros Hparse Hname Hloads.
  rewrite (handle_line_dispatch client_address _ _ _ _ Hparse) by discriminate.
  now rewrite dispatch_set_json, (set_json_refused name text msg p Hname Hloads).
Qed.

Lemma set_json_bad_text_example :
  handle_line (interp := Script.interpreter) Demo.address
    ("/set_json n oops" +:+ PyStr.nl) Demo.with_int =
  (Returns Continue,
   ["Set JSON error: Expecting value: line 1 column 1 (char 0)" +:+ PyStr.nl],
   Demo.with_int).
Proof.
  apply (set_json_bad_text_binds_nothing Script.interpreter Demo.address
           ("/set_json n oops" +:+ PyStr.nl) "n" "oops"
           "Expecting value: line 1 column 1 (char 0)" Demo.with_int);
    reflexivity.
Defined.

(** X9. A [/set_json] whose argument holds no space (a name without a
    text) fails in the unpacking of the split: the only frame is a
    [Server error: ...] line, nothing is bound and the loop goes on. *)
Theorem set_json_without_text_is_reported
    (interp : Interpreter) (client_address raw arg : string) (p : process) :
  parse (PyStr.strip raw) = ("/set_json"%string, arg) ->
  PyStr.contains PyStr.SPACE arg = false ->
  handle_line client_address raw p =
  (Returns Continue,
   ["Server error: not enough values to unpack (expected 2, got 1)" +:+ PyStr.nl],
   p).
Proof.
  intros Hparse Harg.
  rewrite (handle_line_dispatch client_address _ _ _ _ Hparse) by discriminate.
  now rewrite dispatch_set_json, (set_json_unpack_fails arg p Harg).
Qed.

Lemma set_json_without_text_example :
  handle_line (interp := Demo.interpreter) Demo.address
    ("/set_json n" +:+ PyStr.nl) Demo.with_int =
  (Returns Continue,
   ["Server error: not enough values to unpack (expected 2, got 1)" +:+ PyStr.nl],
   Demo.with_int).
Proof.
  apply (set_json_without_text_is_reported Demo.interpreter Demo.address
           ("/set_json n" +:+ PyStr.nl) "n" Demo.with_int);
    reflexivity.
Defined.

(** ** What every turn keeps *)

Section TurnShape.

Import PyStr.

Lemma ends_with_lf_cons (c d : ascii) (s : string) :
  ends_with_lf (String c (String d s)) = ends_with_lf (String d s).
Proof. reflexivity. Qed.

Lemma ends_with_lf_app (a b : string) :
  ends_with_lf b = true -> ends_with_lf (a +:+ b) = true.
Proof.
  intros Hb. induction a as [|c a IH]; [exact Hb |].
  rewrite append_cons. destruct (a +:+ b) as [|d t] eqn:E.
  - destruct a; [| discriminate]. rewrite append_nil in E. now rewrite E in Hb.
  - now rewrite ends_with_lf_cons.
Qed.

End TurnShape.

Ltac solve_ends :=
  repeat first [ apply ends_with_lf_line | apply ends_with_lf_app ].

Ltac single_reply :=
  exists []; eexists; split; [reflexivity | solve_ends].

Section TurnInvariants.

Context {interp : Interpreter}.
Variable client_address : string.

Lemma not_a_verb (cmd : string) :
  is_verb cmd = false ->
  String.eqb cmd "/eval" = false /\ String.eqb cmd "/exec" = false
  /\ String.eqb cmd "/get" = false /\ String.eqb cmd "/set" = false
  /\ String.eqb cmd "/set_json" = false /\ String.eqb cmd "/get_json" = false
  /\ String.eqb cmd "/exit" = false /\ String.eqb cmd "/close" = false.
Proof.
  unfold is_verb, verbs. cbn [existsb]. intros Hverb.
  repeat (apply orb_false_iff in Hverb as [? Hverb]). tauto.
Qed.

Lemma dispatch_not_a_verb (cmd arg line : string) :
  is_verb cmd = false ->
  dispatch client_address cmd arg line = cmd_unrecognized line.
Proof.
  intros Hverb. destruct (not_a_verb cmd Hverb) as (H1 & H2 & H3 & H4 & H5 & H6 & H7 & H8).
  unfold dispatch. now rewrite H1, H2, H3, H4, H5, H6, H7, H8.
Qed.

Lemma eval_shape (arg : string) (p : process) :
  exists r out p',
    cmd_eval arg p = (r, out, p')
    /\ match r with
       | Returns Continue => replied out
       | Returns Break => False
       | Raises e => exn_is_Exception e = false /\ out = []
       end.
Proof.
  destruct (run_result (py_eval arg (global_vars p))) as [v|e] eqn:Hres.
  - rewrite (eval_returns arg p v Hres). eexists _, _, _. split; [reflexivity |].
    eexists _, _. split; [reflexivity | solve_ends].
  - destruct (exn_is_Exception e) eqn:He.
    + rewrite (eval_raises arg p e Hres He). eexists _, _, _.
      split; [reflexivity | single_reply].
    + rewrite (eval_escapes arg p e Hres He). eexists _, _, _.
      split; [reflexivity | now split].
Qed.

Lemma set_shape (arg : string) (p : process) :
  exists r out p',
    cmd_set arg p = (r, out, p')
    /\ match r with
       | Returns Continue => replied out
       | Returns Break => False
       | Raises e => out = []
       end.
Proof.
  destruct (PyStr.cut PyStr.EQUALS arg) as [[lhs expr]|] eqn:Hcut.
  - destruct (cut_some _ _ _ _ Hcut) as [-> Hlhs]. rewrite (set_run lhs expr p Hlhs).
    destruct (run_result (py_eval expr (global_vars p)));
      eexists _, _, _; (split; [reflexivity |]); [single_reply | reflexivity].
  - rewrite (set_unpack_fails arg p (cut_none _ _ Hcut)).
    eexists _, _, _. split; reflexivity.
Qed.

Lemma set_json_shape (arg : string) (p : process) :
  exists r out p',
    cmd_set_json arg p = (r, out, p')
    /\ match r with
       | Returns Continue => replied out
       | Returns Break => False
       | Raises e => out = []
       end.
Proof.
  destruct (PyStr.cut PyStr.SPACE arg) as [[name text]|] eqn:Hcut.
  - destruct (cut_some _ _ _ _ Hcut) as [-> Hname].
    destruct (json_loads text) as [v|msg] eqn:Hloads.
    + rewrite (set_json_stores name text p v Hname Hloads).
      eexists _, _, _. split; [reflexivity | single_reply].
    + rewrite (set_json_refused name text msg p Hname Hloads).
      eexists _, _, _. split; [reflexivity | single_reply].
  - rewrite (set_json_unpack_fails arg p (cut_none _ _ Hcut)).
    eexists _, _, _. split; reflexivity.
Qed.

(** How a dispatch can end: a reply whose last frame ends with a line
    feed and the loop going on; the loop left with no frame or with the
    notice of [/close]; or an exception with the frames sent so far. *)
Lemma dispatch_shape (cmd arg line : string) (p : process) :
  exists r out p',
    dispatch client_address cmd arg line p = (r, out, p')
    /\ match r with
       | Returns Continue => replied out
       | Returns Break =>
           out = [] \/ out = ["Server shutting down." +:+ PyStr.nl]
       | Raises e => out = []
       end.
Proof.
  unfold dispatch.
  destruct (String.eqb cmd "/eval").
  { destruct (eval_shape arg p) as (r & out & p' & -> & Hr).
    eexists _, _, _. split; [reflexivity |].
    destruct r as [[]|]; [exact Hr | contradiction | apply Hr]. }
  destruct (String.eqb cmd "/exec").
  { rewrite exec_run. destruct (run_result (py_exec arg (global_vars p)));
      eexists _, _, _; (split; [reflexivity |]); [single_reply | reflexivity]. }
  destruct (String.eqb cmd "/get").
  { rewrite get_reply. eexists _, _, _. split; [reflexivity |].
    destruct (global_vars p !! arg) as [[]|]; single_reply. }
  destruct (String.eqb cmd "/set").
  { destruct (set_shape arg p) as (r & out & p' & -> & Hr).
    eexists _, _, _. split; [reflexivity |].
    destruct r as [[]|]; [exact Hr | contradiction | exact Hr]. }
  destruct (String.eqb cmd "/set_json").
  { destruct (set_json_shape arg p) as (r & out & p' & -> & Hr).
    eexists _, _, _. split; [reflexivity |].
    destruct r as [[]|]; [exact Hr | contradiction | exact Hr]. }
  destruct (String.eqb cmd "/get_json").
  { rewrite get_json_reply. eexists _, _, _. split; [reflexivity |].
    destruct (global_vars p !! PyStr.strip arg) as [v|]; [| single_reply].
    destruct (json_dumps v); single_reply. }
  destruct (String.eqb cmd "/exit").
  { eexists _, _, _. split; [reflexivity | now left]. }
  destruct (String.eqb cmd "/close").
  { eexists _, _, _. split; [reflexivity | now right]. }
  eexists _, _, _. split; [reflexivity | single_reply].
Qed.

Lemma not_a_writing_verb (cmd : string) :
  is_writing_verb cmd = false ->
  String.eqb cmd "/eval" = false /\ String.eqb cmd "/exec" = false
  /\ String.eqb cmd "/set" = false /\ String.eqb cmd "/set_json" = false.
Proof.
  unfold is_writing_verb, writing_verbs. cbn [existsb]. intros Hverb.
  repeat (apply orb_false_iff in Hverb as [? Hverb]). tauto.
Qed.

(** The branches of the other verbs return and leave the store alone. *)
Lemma quiet_dispatch (cmd arg line : string) (p : process) :
  is_writing_verb cmd = false ->
  exists c out p',
    dispatch client_address cmd arg line p = (Returns c, out, p')
    /\ global_vars p' = global_vars p.
Proof.
  intros Hverb. destruct (not_a_writing_verb cmd Hverb) as (H1 & H2 & H3 & H4).
  unfold dispatch. rewrite H1, H2, H3, H4.
  destruct (String.eqb cmd "/get").
  { rewrite get_reply. eexists _, _, _. split; reflexivity. }
  destruct (String.eqb cmd "/get_json").
  { rewrite get_json_reply. eexists _, _, _. split; reflexivity. }
  destruct (String.eqb cmd "/exit").
  { rewrite exit_leaves. eexists _, _, _. split; [reflexivity |].
    apply write_stdout_global_vars. }
  destruct (String.eqb cmd "/close").
  { eexists _, _, _. split; [reflexivity |]. cbn.
    apply write_stdout_global_vars. }
  eexists _, _, _. split; [reflexivity |]. cbn. apply write_stdout_global_vars.
Qed.

Lemma quiet_turn (raw : string) (p : process) :
  is_writing_verb (fst (parse (PyStr.strip raw))) = false ->
  exists c out p',
    handle_line client_address raw p = (Returns c, out, p')
    /\ global_vars p' = global_vars p.
Proof.
  intros Hverb. destruct (all_blank raw) eqn:Hraw.
  - apply strip_blank in Hraw. rewrite (handle_line_blank _ _ _ Hraw).
    eexists _, _, _. split; reflexivity.
  - rewrite (handle_line_cases client_address raw p Hraw).
    destruct (quiet_dispatch _ (snd (parse (PyStr.strip raw))) (PyStr.strip raw) p Hverb)
      as (c & out & p' & -> & Hstore).
    eexists _, _, _. split; [reflexivity | exact Hstore].
Qed.

Lemma turn_shape (raw : string) (p : process) :
  exists r out p',
    handle_line client_address raw p = (r, out, p')
    /\ match r with
       | Returns Continue => replied out
       | Returns Break =>
           out = [] \/ out = ["Server shutting down." +:+ PyStr.nl]
       | Raises e => exn_is_Exception e = false /\ out = []
       end.
Proof.
  destruct (all_blank raw) eqn:Hraw.
  - apply strip_blank in Hraw. rewrite (handle_line_blank _ _ _ Hraw).
    eexists _, _, _. split; [reflexivity | now left].
  - rewrite (handle_line_cases client_address raw p Hraw).
    destruct (dispatch_shape (fst (parse (PyStr.strip raw)))
                (snd (parse (PyStr.strip raw))) (PyStr.strip raw) p)
      as (r & out & p' & -> & Hr).
    destruct r as [c|e]; cbn [after_dispatch].
    + eexists _, _, _. split; [reflexivity | exact Hr].
    + destruct (exn_is_Exception e) eqn:He.
      * eexists _, _, _. split; [reflexivity |].
        eexists out, _. split; [reflexivity | solve_ends].
      * eexists _, _, _. split; [reflexivity | now split].
Qed.


Lemma quiet_loop (reads : list string) (p : process) :
  forallb (fun raw => negb (is_writing_verb (fst (parse (PyStr.strip raw))))) reads
  = true ->
  exists out p',
    handle_loop client_address reads p = (Returns tt, out, p')
    /\ global_vars p' = global_vars p.
Proof.
  revert p. induction reads as [|raw rest IH]; intros p Hreads.
  - cbn [handle_loop]. unfold bind.
    destruct (quiet_turn EmptyString p eq_refl) as (c & out & p' & -> & Hstore).
    eexists _, _. split; [reflexivity | exact Hstore].
  - cbn [forallb] in Hreads. apply andb_true_iff in Hreads as [Hraw Hrest].
    apply negb_true_iff in Hraw.
    cbn [handle_loop]. unfold bind.
    destruct (quiet_turn raw p Hraw) as (c & out & p' & -> & Hstore).
    destruct c.
    + destruct (IH p' Hrest) as (out2 & p2 & -> & Hstore2).
      eexists _, _. split; [reflexivity | congruence].
    + eexists _, _. split; [reflexivity | exact Hstore].
Qed.

End TurnInvariants.

(** ** The last branches of the dispatch (lines 125-135) *)

(** X10. A line whose verb is none of the eight verbs, compared as they
    are written (so [/GET] or [/get] followed by a tab are not [/get]), is
    answered by [Unrecognized command: '<line>'] with the whole stripped
    line; the same notice goes to the standard output of the server, the
    store is untouched and the loop goes on. *)
Theorem unrecognized_command_is_echoed
    (interp : Interpreter) (client_address raw : string) (p : process) :
  all_blank raw = false ->
  is_verb (fst (parse (PyStr.strip raw))) = false ->
  handle_line client_address raw p =
  (Returns Continue,
   ["Unrecognized command: '" +:+ PyStr.strip raw +:+ "'" +:+ PyStr.nl],
   write_stdout (("Unrecognized command: '" +:+ PyStr.strip raw +:+ "'") +:+ PyStr.nl) p).
Proof.
  intros Hraw Hverb.
  rewrite (handle_line_cases client_address raw p Hraw).
  now rewrite (dispatch_not_a_verb client_address _ _ _ Hverb).
Qed.

Lemma unrecognized_command_example :
  handle_line (interp := Demo.interpreter) Demo.address
    ("/GET n" +:+ PyStr.nl) Demo.with_int =
  (Returns Continue, ["Unrecognized command: '/GET n'" +:+ PyStr.nl],
   Process {[ "n"%string := VInt 5 ]} Console
           ("Unrecognized command: '/GET n'" +:+ PyStr.nl) false).
Proof.
  apply (unrecognized_command_is_echoed Demo.interpreter Demo.address
           ("/GET n" +:+ PyStr.nl) Demo.with_int);
    reflexivity.
Defined.

(** X11. [/close], whatever follows the verb, sends the one frame
    [Server shutting down.], asks the server to shut down and leaves the
    loop; the store is what it was. *)
Theorem close_acknowledges_and_requests_shutdown
    (interp : Interpreter) (client_address raw arg : string) (p : process) :
  parse (PyStr.strip raw) = ("/close"%string, arg) ->
  exists p' : process,
    handle_line client_address raw p =
    (Returns Break, ["Server shutting down." +:+ PyStr.nl], p')
    /\ shutdown_requested p' = true
    /\ global_vars p' = global_vars p.
Proof.
  intros Hparse.
  rewrite (handle_line_dispatch client_address _ _ _ _ Hparse) by discriminate.
  eexists. split; [reflexivity |]. split; [reflexivity |].
  cbn. apply write_stdout_global_vars.
Qed.

Lemma close_acknowledges_example :
  exists p' : process,
    handle_line (interp := Demo.interpreter) Demo.address
      ("/close now" +:+ PyStr.nl) Demo.with_int =
    (Returns Break, ["Server shutting down." +:+ PyStr.nl], p')
    /\ shutdown_requested p' = true
    /\ global_vars p' = global_vars Demo.with_int.
Proof.
  apply (close_acknowledges_and_requests_shutdown Demo.interpreter Demo.address
           ("/close now" +:+ PyStr.nl) "now" Demo.with_int).
  reflexivity.
Defined.

(** ** Invariants of a turn and of the loop *)

(** X12. Only [/eval], [/exec], [/set] and [/set_json] can change the
    store: a turn on any other line (another verb, an unknown verb, a
    blank line) raises nothing and leaves every binding as it was. *)
Theorem only_four_verbs_write_the_store
    (interp : Interpreter) (client_address raw : string) (p p' : process)
    (r : completion ctl) (out : list string) :
  is_writing_verb (fst (parse (PyStr.strip raw))) = false ->
  handle_line client_address raw p = (r, out, p') ->
  global_vars p' = global_vars p /\ exists c : ctl, r = Returns c.
Proof.
  intros Hverb Hturn.
  destruct (quiet_turn client_address raw p Hverb) as (c & out0 & p0 & Heq & Hstore).
  rewrite Heq in Hturn. inversion Hturn; subst. eauto.
Qed.

Lemma only_four_verbs_write_example :
  global_vars Demo.with_int = global_vars Demo.with_int
  /\ exists c : ctl, Returns Continue = Returns c.
Proof.
  apply (only_four_verbs_write_the_store Demo.interpreter Demo.address
           ("/get_json n" +:+ PyStr.nl) Demo.with_int Demo.with_int
           (Returns Continue) ["5" +:+ PyStr.nl]);
    reflexivity.
Defined.

(** X13. A whole session made of lines with none of the four writing
    verbs ends normally and leaves the store as it found it, wherever the
    session stops. *)
Theorem reading_session_keeps_the_store
    (interp : Interpreter) (client_address : string) (reads : list string)
    (p : process) :
  forallb (fun raw => negb (is_writing_verb (fst (parse (PyStr.strip raw))))) reads
  = true ->
  exists (out : list string) (p' : process),
    handle client_address reads p = (Returns tt, out, p')
    /\ global_vars p' = global_vars p.
Proof.
  intros Hreads.
  destruct (quiet_loop client_address reads p Hreads) as (out & p' & Hloop & Hstore).
  unfold handle, bind, sendall. rewrite Hloop.
  eexists _, _. split; [reflexivity | exact Hstore].
Qed.

Lemma reading_session_example :
  exists (out : list string) (p' : process),
    handle (interp := Demo.interpreter) Demo.address
      [ "/get n" +:+ PyStr.nl; "/bogus" +:+ PyStr.nl; "/get_json n" +:+ PyStr.nl ]
      Demo.with_int = (Returns tt, out, p')
    /\ global_vars p' = global_vars Demo.with_int.
Proof.
  apply (reading_session_keeps_the_store Demo.interpreter Demo.address
           [ "/get n" +:+ PyStr.nl; "/bogus" +:+ PyStr.nl; "/get_json n" +:+ PyStr.nl ]
           Demo.with_int).
  reflexivity.
Defined.

(** X14. Every turn is of one of three kinds. A turn after which the loop
    goes on has sent at least one frame, and its last frame ends with a
    line feed: each command that keeps the connection gets its reply. A
    turn that leaves the loop has sent nothing, or the notice of [/close]
    alone. A turn that ends with an exception ends with one that is not an
    [Exception], and has sent nothing. *)
Theorem every_turn_replies_or_leaves
    (interp : Interpreter) (client_address raw : string) (p p' : process)
    (r : completion ctl) (out : list string) :
  handle_line client_address raw p = (r, out, p') ->
  match r with
  | Returns Continue =>
      exists (before : list string) (frame : string),
        out = before ++ [frame] /\ PyStr.ends_with_lf frame = true
  | Returns Break => out = [] \/ out = ["Server shutting down." +:+ PyStr.nl]
  | Raises e => exn_is_Exception e = false /\ out = []
  end.
Proof.
  intros Hturn.
  destruct (turn_shape client_address raw p) as (r0 & out0 & p0 & Heq & Hr).
  rewrite Heq in Hturn. inversion Hturn; subst. exact Hr.
Qed.

Lemma every_turn_replies_example :
  exists (before : list string) (frame : string),
    [ "[PYTHON_PRINT]hi" +:+ PyStr.nl; "Result: 7" +:+ PyStr.nl ] = before ++ [frame]
    /\ PyStr.ends_with_lf frame = true.
Proof.
  apply (every_turn_replies_or_leaves Demo.interpreter Demo.address
           ("/eval print('hi') or 7" +:+ PyStr.nl) Demo.start Demo.start
           (Returns Continue)
           [ "[PYTHON_PRINT]hi" +:+ PyStr.nl; "Result: 7" +:+ PyStr.nl ]).
  reflexivity.
Defined.



(** X16. When the expression of [/eval] raises an exception that is not
    an [Exception], no handler puts [sys.stdout] back: it stays on the
    capture buffer. From then on the notices of the server no longer reach
    its console: a later [/exit], on any connection, leaves the console as
    it was. *)
Theorem eval_escape_leaves_stdout_on_the_buffer
    (interp : Interpreter) (client_address raw arg : string) (p : process)
    (e : exn) :
  parse (PyStr.strip raw) = ("/eval"%string, arg) ->
  run_result (py_eval arg (global_vars p)) = Raises e ->
  exn_is_Exception e = false ->
  exists p' : process,
    handle_line client_address raw p = (Raises e, [], p')
    /\ sys_stdout p' = StringIO (run_stdout (py_eval arg (global_vars p)))
    /\ console p' = console p
    /\ forall (client_address' raw' arg' : string),
         parse (PyStr.strip raw') = ("/exit"%string, arg') ->
         exists p'' : process,
           handle_line client_address' raw' p' = (Returns Break, [], p'')
           /\ console p'' = console p.
Proof.
  intros Hparse Hres He. eexists. split; [| split; [| split]].
  - rewrite (handle_line_dispatch client_address _ _ _ _ Hparse) by discriminate.
    rewrite dispatch_eval, (eval_escapes arg p e Hres He).
    unfold after_dispatch. rewrite He. reflexivity.
  - reflexivity.
  - reflexivity.
  - intros a' raw' arg' Hexit. eexists. split.
    + apply (turn_exit a' raw' arg' _ Hexit).
    + reflexivity.
Qed.

Lemma eval_escape_example :
  exists p' : process,
    handle_line (interp := Script.interpreter) Demo.address
      ("/eval exit()" +:+ PyStr.nl) Demo.start = (Raises Demo.SystemExit, [], p')
    /\ sys_stdout p' = StringIO EmptyString
    /\ console p' = console Demo.start
    /\ forall (client_address' raw' arg' : string),
         parse (PyStr.strip raw') = ("/exit"%string, arg') ->
         exists p'' : process,
           handle_line (interp := Script.interpreter) client_address' raw' p'
           = (Returns Break, [], p'')
           /\ console p'' = console Demo.start.
Proof.
  apply (eval_escape_leaves_stdout_on_the_buffer Script.interpreter Demo.address
           ("/eval exit()" +:+ PyStr.nl) "exit()" Demo.start Demo.SystemExit);
    reflexivity.
Defined.

(** ** The flattening keeps every other character in place (lines 70, 84) *)

Section FlattenShape.

Import PyStr.

#[local] Arguments Ascii.eqb : simpl never.

Lemma flatten_text_length_both (s : string) :
  String.length (flatten_text s) = String.length s
  /\ forall c, String.length (flatten_text (String c s)) = S (String.length s).
Proof.
  induction s as [|d s [IHs IHc]].
  - split; [reflexivity |]. intros c. rewrite flatten_text_cons1.
    destruct (Ascii.eqb c RBRACKET); [reflexivity |].
    destruct (Ascii.eqb c LF); reflexivity.
  - split; [apply IHc |]. intros c. rewrite flatten_text_cons2.
    destruct (Ascii.eqb c RBRACKET).
    + destruct (Ascii.eqb d LF).
      * rewrite !append_cons, append_nil. cbn [String.length]. now rewrite IHs.
      * cbn [String.length]. now rewrite IHc.
    + destruct (Ascii.eqb c LF).
      * rewrite append_cons, append_nil. cbn [String.length]. now rewrite IHc.
      * cbn [String.length]. now rewrite IHc.
Qed.

Lemma flatten_text_get_both (s : string) :
  (forall i c, String.get i s = Some c -> c <> LF ->
               String.get i (flatten_text s) = Some c)
  /\ forall d i c, String.get i (String d s) = Some c -> c <> LF ->
                   String.get i (flatten_text (String d s)) = Some c.
Proof.
  induction s as [|e s [IHs IHc]].
  - split; [intros i c; destruct i; discriminate |].
    intros d i c Hget Hc. rewrite flatten_text_cons1.
    destruct i as [|i]; [| destruct i; discriminate].
    cbn in Hget. inversion Hget; subst.
    destruct (Ascii.eqb c RBRACKET); [reflexivity |].
    destruct (Ascii.eqb_spec c LF); [contradiction | reflexivity].
  - split; [apply IHc |]. intros d i c Hget Hc. rewrite flatten_text_cons2.
    destruct i as [|i].
    + cbn in Hget. inversion Hget; subst.
      destruct (Ascii.eqb_spec c RBRACKET) as [->|];
        [destruct (Ascii.eqb e LF); reflexivity |].
      destruct (Ascii.eqb_spec c LF); [contradiction | reflexivity].
    + change (String.get (S i) (String d (String e s)))
        with (String.get i (String e s)) in Hget.
      destruct (Ascii.eqb d RBRACKET).
      * destruct (Ascii.eqb_spec e LF) as [->|He].
        -- rewrite !append_cons, append_nil.
           destruct i as [|i]; [cbn in Hget; congruence |].
           change (String.get (S i) (String LF s)) with (String.get i s) in Hget.
           cbn [String.get]. now apply IHs.
        -- cbn [String.get]. now apply IHc.
      * destruct (Ascii.eqb d LF).
        -- rewrite append_cons, append_nil. cbn [String.get]. now apply IHc.
        -- cbn [String.get]. now apply IHc.
Qed.

Lemma flatten_text_fixed_both (s : string) :
  (count_lf s = 0 -> flatten_text s = s)
  /\ forall c, count_lf (String c s) = 0 -> flatten_text (String c s) = String c s.
Proof.
  induction s as [|d s [IHs IHc]].
  - split; [reflexivity |]. intros c. rewrite count_lf_cons, flatten_text_cons1.
    destruct (Ascii.eqb c RBRACKET); [reflexivity |].
    destruct (Ascii.eqb c LF); [discriminate | reflexivity].
  - split; [apply IHc |]. intros c. rewrite count_lf_cons, flatten_text_cons2.
    intros Hc. assert (Hd : count_lf (String d s) = 0) by lia.
    assert (Hlf : Ascii.eqb c LF = false)
      by (destruct (Ascii.eqb c LF); [discriminate | reflexivity]).
    rewrite Hlf. rewrite count_lf_cons in Hd.
    assert (Hdlf : Ascii.eqb d LF = false)
      by (destruct (Ascii.eqb d LF); [discriminate | reflexivity]).
    rewrite Hdlf. rewrite <- count_lf_cons in Hd. rewrite (IHc d Hd).
    now destruct (Ascii.eqb c RBRACKET).
Qed.

End FlattenShape.

(** X17. The two replacements change line feeds only, and in place: the
    flattened text has the length of the printed form, every character
    that is not a line feed stays where it was, and flattening a text
    twice gives what flattening once gives. *)
Theorem flattening_changes_line_feeds_in_place (text : string) :
  String.length (two_step text) = String.length text
  /\ (forall (i : nat) (c : ascii),
        String.get i text = Some c -> c <> PyStr.LF ->
        String.get i (two_step text) = Some c)
  /\ two_step (two_step text) = two_step text.
Proof.
  rewrite !two_step_flatten_text. split; [| split].
  - apply flatten_text_length_both.
  - apply flatten_text_get_both.
  - apply flatten_text_fixed_both. apply flatten_text_no_lf_both.
Qed.

(** ** Binding the same name again (lines 98-108) *)

Lemma set_json_line
    (interp : Interpreter) (client_address N js : string) (v : value)
    (p : process) :
  PyStr.contains PyStr.SPACE N = false ->
  PyStr.strip N = N ->
  PyStr.rstrip js = js ->
  js <> EmptyString ->
  json_loads js = Success v ->
  handle_line client_address ("/set_json " +:+ N +:+ " " +:+ js +:+ PyStr.nl) p
  = (Returns Continue, ["Set JSON '" +:+ N +:+ "' success" +:+ PyStr.nl],
     set_global_vars (<[N := v]> (global_vars p)) p).
Proof.
  intros Hspace Hname Htext Hne Hloads.
  assert (Harg : PyStr.rstrip (N +:+ " " +:+ js) = N +:+ " " +:+ js).
  { assert (Hsp : PyStr.rstrip (" " +:+ js) = " " +:+ js)
      by (rewrite rstrip_app_kept; rewrite Htext; [reflexivity | assumption]).
    rewrite rstrip_app_kept; rewrite Hsp; [reflexivity | discriminate]. }
  assert (Hset : parse (PyStr.strip ("/set_json " +:+ N +:+ " " +:+ js +:+ PyStr.nl))
                 = ("/set_json"%string, N +:+ " " +:+ js)).
  { rewrite <- (parse_request "/set_json" (N +:+ " " +:+ js)); try easy.
    now rewrite !append_assoc. }
  rewrite (handle_line_dispatch client_address _ _ _ _ Hset) by discriminate.
  rewrite dispatch_set_json.
  change (N +:+ " " +:+ js) with (N +:+ String PyStr.SPACE js).
  rewrite (set_json_stores N js p v Hspace Hloads), Hname. reflexivity.
Qed.

(** X18. A second [/set_json] of a name replaces its value without a
    notice: after two of them the store is the first store with the name
    bound to the second value, and every other name is bound as before. *)
Theorem set_json_overwrites_and_spares_other_names
    (interp : Interpreter) (client_address client_address' N js1 js2 : string)
    (v1 v2 : value) (p : process) :
  PyStr.contains PyStr.SPACE N = false ->
  PyStr.strip N = N ->
  PyStr.rstrip js1 = js1 -> js1 <> EmptyString -> json_loads js1 = Success v1 ->
  PyStr.rstrip js2 = js2 -> js2 <> EmptyString -> json_loads js2 = Success v2 ->
  exists p1 p2 : process,
    handle_line client_address ("/set_json " +:+ N +:+ " " +:+ js1 +:+ PyStr.nl) p
    = (Returns Continue, ["Set JSON '" +:+ N +:+ "' success" +:+ PyStr.nl], p1)
    /\ handle_line client_address' ("/set_json " +:+ N +:+ " " +:+ js2 +:+ PyStr.nl) p1
       = (Returns Continue, ["Set JSON '" +:+ N +:+ "' success" +:+ PyStr.nl], p2)
    /\ global_vars p2 = <[N := v2]> (global_vars p)
    /\ forall M : string, M <> N -> global_vars p2 !! M = global_vars p !! M.
Proof.
  intros Hspace Hname Ht1 Hne1 Hl1 Ht2 Hne2 Hl2.
  eexists _, _. split; [| split; [| split]].
  - apply (set_json_line interp client_address N js1 v1 p); assumption.
  - apply (set_json_line interp client_address' N js2 v2); assumption.
  - cbn [global_vars set_global_vars]. apply insert_insert_eq.
  - intros M HM. cbn [global_vars set_global_vars].
    rewrite !lookup_insert_ne by congruence. reflexivity.
Qed.

Lemma set_json_overwrites_example :
  exists p1 p2 : process,
    handle_line (interp := Demo.interpreter) Demo.address
      ("/set_json " +:+ "n" +:+ " " +:+ "7" +:+ PyStr.nl) Demo.with_int
    = (Returns Continue, ["Set JSON '" +:+ "n" +:+ "' success" +:+ PyStr.nl], p1)
    /\ handle_line (interp := Demo.interpreter) Demo.address
         ("/set_json " +:+ "n" +:+ " " +:+ "null" +:+ PyStr.nl) p1
       = (Returns Continue, ["Set JSON '" +:+ "n" +:+ "' success" +:+ PyStr.nl], p2)
    /\ global_vars p2 = <["n"%string := VNone]> (global_vars Demo.with_int)
    /\ forall M : string,
         M <> "n"%string -> global_vars p2 !! M = global_vars Demo.with_int !! M.
Proof.
  apply (set_json_overwrites_and_spares_other_names Demo.interpreter Demo.address
           Demo.address "n" "7" "null" (VInt 7) VNone Demo.with_int);
    first [reflexivity | discriminate].
Defined.

(** ** One socket per handler *)


(** ** The project path of [start_server] (lines 160-163) *)

Section PathFacts.

Import PyPath.

Lemma split_all_not_nil (sep : ascii) (s : string) : split_all sep s <> [].
Proof.
  destruct s as [|c s]; simpl; [discriminate |].
  destruct (Ascii.eqb c sep); [discriminate |].
  destruct (split_all sep s); discriminate.
Qed.

Lemma split_all_clean (sep : ascii) (s : string) :
  PyStr.contains sep s = false -> split_all sep s = [s].
Proof.
  induction s as [|c s IH]; simpl; [reflexivity |]. intros Hs.
  apply orb_false_iff in Hs as [Hc Hs]. now rewrite Hc, (IH Hs).
Qed.

(** Splitting a text made of two texts around a separator. *)
Lemma split_all_around (sep : ascii) (x y : string) :
  split_all sep (x +:+ String sep y) = split_all sep x ++ split_all sep y.
Proof.
  induction x as [|c x IH].
  - simpl. now rewrite Ascii.eqb_refl.
  - rewrite append_cons. simpl. destruct (Ascii.eqb c sep).
    + now rewrite IH.
    + rewrite IH. pose proof (split_all_not_nil sep x) as Hx.
      destruct (split_all sep x); [contradiction | reflexivity].
Qed.

Lemma join_cons (sep part : string) (rest : list string) :
  rest <> [] -> join sep (part :: rest) = part +:+ sep +:+ join sep rest.
Proof. destruct rest; [contradiction | reflexivity]. Qed.

Lemma join_split_all (sep : ascii) (s : string) :
  join (String sep EmptyString) (split_all sep s) = s.
Proof.
  induction s as [|c s IH]; [reflexivity |]. simpl.
  pose proof (split_all_not_nil sep s) as Hs.
  destruct (Ascii.eqb_spec c sep) as [->|Hc].
  - rewrite (join_cons _ _ _ Hs), IH. reflexivity.
  - destruct (split_all sep s) as [|part parts]; [contradiction |].
    destruct parts as [|part' parts].
    + simpl in *. now rewrite IH.
    + rewrite join_cons in IH by discriminate. rewrite join_cons by discriminate.
      rewrite append_cons. now rewrite IH.
Qed.

End PathFacts.

(** X20. For a path written with backslashes, [main_path] is the path
    without its last two components: the file name and the directory that
    holds it. *)
Theorem main_path_drops_the_last_two_components (root dir file : string) :
  PyStr.contains PyPath.BACKSLASH dir = false ->
  PyStr.contains PyPath.BACKSLASH file = false ->
  PyPath.main_path
    (root +:+ String PyPath.BACKSLASH (dir +:+ String PyPath.BACKSLASH file))
  = root.
Proof.
  intros Hdir Hfile. unfold PyPath.main_path, PyPath.but_last_two.
  rewrite !split_all_around, (split_all_clean _ _ Hdir), (split_all_clean _ _ Hfile).
  rewrite length_app. cbn [length app].
  replace (length (PyPath.split_all PyPath.BACKSLASH root) + 2 - 2)
    with (length (PyPath.split_all PyPath.BACKSLASH root) + 0) by lia.
  rewrite firstn_app_2. cbn [firstn]. rewrite app_nil_r.
  apply join_split_all.
Qed.

Lemma main_path_example :
  PyPath.main_path
    ("C:\MyLibrary" +:+ String PyPath.BACKSLASH
       ("interface" +:+ String PyPath.BACKSLASH "matlab.py"))
  = "C:\MyLibrary"%string.
Proof.
  apply (main_path_drops_the_last_two_components "C:\MyLibrary" "interface"
           "matlab.py");
    reflexivity.
Defined.

(** X21. A path with fewer than two backslashes, as every path of a
    system that separates with [/], has the empty [main_path]: it is the
    empty text that [start_server] puts on [sys.path]. *)
Theorem main_path_of_a_path_without_backslashes (dir file : string) :
  PyStr.contains PyPath.BACKSLASH dir = false ->
  PyStr.contains PyPath.BACKSLASH file = false ->
  PyPath.main_path file = EmptyString
  /\ PyPath.main_path (dir +:+ String PyPath.BACKSLASH file) = EmptyString
  /\ forall sys_path : list string,
       In EmptyString (PyPath.add_to_sys_path (PyPath.main_path file) sys_path).
Proof.
  intros Hdir Hfile. unfold PyPath.main_path, PyPath.but_last_two.
  rewrite split_all_around, (split_all_clean _ _ Hdir), (split_all_clean _ _ Hfile).
  split; [reflexivity |]. split; [reflexivity |].
  intros sys_path. cbn. unfold PyPath.add_to_sys_path.
  destruct (existsb (String.eqb EmptyString) sys_path) eqn:Hin.
  - apply existsb_exists in Hin as (x & Hx & Heq).
    apply String.eqb_eq in Heq. now subst.
  - apply in_or_app. right. now left.
Qed.

Lemma main_path_without_backslashes_example :
  PyPath.main_path "/srv/MyLibrary/Python/interface/matlab.py" = EmptyString
  /\ PyPath.main_path
       ("interface" +:+ String PyPath.BACKSLASH "/srv/MyLibrary/Python/interface/matlab.py")
     = EmptyString
  /\ forall sys_path : list string,
       In EmptyString
          (PyPath.add_to_sys_path
             (PyPath.main_path "/srv/MyLibrary/Python/interface/matlab.py") sys_path).
Proof.
  apply (main_path_of_a_path_without_backslashes "interface"
           "/srv/MyLibrary/Python/interface/matlab.py");
    reflexivity.
Defined.
